(** * Dependency cache of setup-java: a shallow embedding of [src/cache.ts]

    The module [cache.ts] keys, restores and conditionally re-saves the
    dependency cache of a build tool.  It is embedded here function by
    function.  Its collaborators (the [@actions/cache] artifact store, the
    [@actions/glob] hashing primitive, the [@actions/core] state, outputs
    and logging, and Node's [os], [path] and [process]) are not part of the
    module: their answers are fields of an environment record [Env], and
    every call to one of them is recorded in the trace of the [World] that
    the embedded functions thread.

    Strings.  A JavaScript string is a sequence of UTF-16 code units.  A
    Rocq [string] stands for the JavaScript string whose code units are the
    numbers of its characters, so the embedding covers the strings whose
    code units are below 256. *)

From Stdlib Require Import String Ascii List ZArith Bool.
From stdpp Require Import base option strings gmap.

Import ListNotations.
Local Open Scope string_scope.

(** ** JavaScript string and array primitives used by the module *)

Module Js.

(** The line feed, the separator of [split('\n')] and [join('\n')]. *)
Definition LF : ascii := ascii_of_nat 10.

(** [String.prototype.trim] removes white space and line terminators:
    TAB, LF, VT, FF, CR, SP and NBSP are the ones below 256. *)
Definition isWhiteSpace (c : ascii) : bool :=
  match nat_of_ascii c with
  | 9 | 10 | 11 | 12 | 13 | 32 | 160 => true
  | _ => false
  end.

Fixpoint trimStart (s : string) : string :=
  match s with
  | EmptyString => EmptyString
  | String c s' => if isWhiteSpace c then trimStart s' else s
  end.

Fixpoint trimEnd (s : string) : string :=
  match s with
  | EmptyString => EmptyString
  | String c s' =>
      match trimEnd s' with
      | EmptyString => if isWhiteSpace c then EmptyString else String c EmptyString
      | r => String c r
      end
  end.

(** [s.trim()] *)
Definition trim (s : string) : string := trimEnd (trimStart s).

(** [s.split('\n')]: the pieces between line feeds; one piece, the string
    itself, when there is none (so [''.split('\n')] is [['']]). *)
Fixpoint split_lf (s : string) : list string :=
  match s with
  | EmptyString => [EmptyString]
  | String c s' =>
      if Ascii.eqb c LF then EmptyString :: split_lf s'
      else match split_lf s' with
           | piece :: pieces => String c piece :: pieces
           | [] => [String c EmptyString]
           end
  end.

(** The string of one double quote. *)
Definition DQUOTE : string := String (ascii_of_nat 34) EmptyString.

(** The string ['\n']. *)
Definition NL : string := String LF EmptyString.

(** [a.join(sep)] on an array of strings. *)
Fixpoint join (sep : string) (a : list string) : string :=
  match a with
  | [] => EmptyString
  | [x] => x
  | x :: rest => x ++ sep ++ join sep rest
  end.

(** [a.toString()], which a template literal applies to an array. *)
Definition array_toString (a : list string) : string := join "," a.

(** Truthiness of a string: every string but the empty one. *)
Definition truthy (s : string) : bool :=
  match s with
  | EmptyString => false
  | String _ _ => true
  end.

(** Truthiness of a value that is a string or [undefined]. *)
Definition truthy_opt (v : option string) : bool :=
  match v with
  | Some s => truthy s
  | None => false
  end.

(** [`${v}`] for a value that is a string or [undefined]. *)
Definition template (v : option string) : string :=
  match v with
  | Some s => s
  | None => "undefined"
  end.

(** [v === s] for a value [v] that is a string or [undefined]. *)
Definition strict_eq (v : option string) (s : string) : bool :=
  match v with
  | Some s' => String.eqb s' s
  | None => false
  end.

(** [s.startsWith(p)] *)
Definition startsWith (s p : string) : bool := String.prefix p s.

(** [a || ''] on strings. *)
Definition or_empty (a : string) : string := if truthy a then a else EmptyString.

(** [s.includes(t)], as a proposition. *)
Definition includes (s t : string) : Prop :=
  exists before after, s = before ++ t ++ after.

End Js.

(** ** Errors, environment and world *)

(** A thrown [Error]: its [name] and its [message]. *)
Record JsError := mkError { name : string; message : string }.

(** [new Error(msg)] *)
Definition new_Error (msg : string) : JsError :=
  {| name := "Error"; message := msg |}.

(** The outcome of a call: a value, or a thrown error (a rejected promise). *)
Inductive Result (A : Type) : Type :=
| Returns (a : A)
| Throws (e : JsError).
Arguments Returns {A} a.
Arguments Throws {A} e.

(** What the module reads from its collaborators.  [hashFiles] answers a
    hash, or nothing ([None], or the empty string) when no file matched;
    [restoreCache] answers the matched key, or nothing; [saveCache] answers
    a cache id.  The two calls to the artifact store may throw. *)
Record Env := {
  RUNNER_OS : option string;          (* process.env['RUNNER_OS'] *)
  cwd : string;                       (* process.cwd() *)
  homedir : string;                   (* os.homedir() *)
  os_type : string;                   (* os.type() *)
  path_join : list string -> string;  (* join(...) of 'path' *)
  hashFiles : string -> option string;
  restoreCache : list string -> string -> list string -> Result (option string);
  saveCache : list string -> string -> Result Z
}.

(** One observable action of the module on a collaborator. *)
Inductive Event :=
| EvDebug (msg : string)                       (* core.debug *)
| EvInfo (msg : string)                        (* core.info *)
| EvWarning (msg : string)                     (* core.warning *)
| EvSaveState (key value : string)             (* core.saveState *)
| EvSetOutput (key : string) (value : bool)    (* core.setOutput *)
| EvHashFiles (patterns : string)              (* glob.hashFiles *)
| EvRestoreCache (paths : list string) (key : string) (restoreKeys : list string)
| EvSaveCache (paths : list string) (key : string).

(** The persisted state, the outputs, and the trace of all actions so far,
    oldest first. *)
Record World := {
  state : gmap string string;
  outputs : gmap string bool;
  trace : list Event
}.

(** ** The monad of the module: state passing with exceptions *)

Definition M (A : Type) : Type := World -> Result A * World.

Definition ret {A} (a : A) : M A := fun w => (Returns a, w).

Definition throw {A} (e : JsError) : M A := fun w => (Throws e, w).

Definition bind {A B} (m : M A) (k : A -> M B) : M B :=
  fun w =>
    match m w with
    | (Returns a, w') => k a w'
    | (Throws e, w') => (Throws e, w')
    end.

(** [try { m } catch (error) { h error }] *)
Definition try_catch {A} (m : M A) (h : JsError -> M A) : M A :=
  fun w =>
    match m w with
    | (Returns a, w') => (Returns a, w')
    | (Throws e, w') => h e w'
    end.

Declare Scope js_scope.
Delimit Scope js_scope with js.
Notation "'do' x <- m ; k" := (bind m (fun x => k))
  (at level 10, x name, m at level 100, k at level 200) : js_scope.
Notation "'run' m ; k" := (bind m (fun _ => k))
  (at level 10, m at level 100, k at level 200) : js_scope.
Local Open Scope js_scope.

Definition emit (e : Event) : M unit :=
  fun w => (Returns tt,
            {| state := state w; outputs := outputs w; trace := (trace w ++ [e])%list |}).

(** A call whose answer comes from the environment, recorded in the trace. *)
Definition call {A} (e : Event) (r : Result A) : M A :=
  fun w => (r, {| state := state w; outputs := outputs w; trace := (trace w ++ [e])%list |}).

Module core.

Definition debug (msg : string) : M unit := emit (EvDebug msg).
Definition info (msg : string) : M unit := emit (EvInfo msg).
Definition warning (msg : string) : M unit := emit (EvWarning msg).

(** [core.saveState(name, value)] *)
Definition saveState (key value : string) : M unit :=
  fun w => (Returns tt,
            {| state := <[key := value]> (state w);
               outputs := outputs w;
               trace := (trace w ++ [EvSaveState key value])%list |}).

(** [core.getState(name)]: the empty string when the slot is absent. *)
Definition getState (key : string) : M string :=
  fun w => (Returns (default EmptyString (state w !! key)), w).

(** [core.setOutput(name, value)] *)
Definition setOutput (key : string) (value : bool) : M unit :=
  fun w => (Returns tt,
            {| state := state w;
               outputs := <[key := value]> (outputs w);
               trace := (trace w ++ [EvSetOutput key value])%list |}).

End core.

(** ** The module [cache.ts] *)

Definition STATE_CACHE_PRIMARY_KEY : string := "cache-primary-key".
Definition CACHE_MATCHED_KEY : string := "cache-matched-key".
Definition CACHE_KEY_PREFIX : string := "setup-java".

(** [cache.ReserveCacheError.name]: the name of the class of
    [@actions/cache], which its constructor also gives to every instance. *)
Definition ReserveCacheError_name : string := "ReserveCacheError".

Record PackageManager := {
  id : string;
  path : list string;
  pattern : list string
}.

Section Cache.

Variable env : Env.

Definition getCoursierCachePath : string :=
  if String.eqb (os_type env) "Linux"
  then path_join env [homedir env; ".cache"; "coursier"]
  else if String.eqb (os_type env) "Darwin"
  then path_join env [homedir env; "Library"; "Caches"; "Coursier"]
  else path_join env [homedir env; "AppData"; "Local"; "Coursier"; "Cache"].

Definition supportedPackageManager : list PackageManager :=
  [ {| id := "maven";
       path := [path_join env [homedir env; ".m2"; "repository"]];
       pattern := ["**/pom.xml"] |};
    {| id := "gradle";
       path := [path_join env [homedir env; ".gradle"; "caches"]];
       pattern := ["gradle/wrapper/gradle-wrapper.properties";
                   "gradle.properties*";
                   "settings.gradle*"] |};
    {| id := "sbt";
       path := [path_join env [homedir env; ".ivy2"; "cache"];
                path_join env [homedir env; ".sbt"];
                getCoursierCachePath;
                "!" ++ path_join env [homedir env; ".sbt"; "*.lock"];
                "!" ++ path_join env [homedir env; "**"; "ivydata-*.properties"]];
       pattern := ["**/*.sbt";
                   "**/project/build.properties";
                   "**/project/**.scala";
                   "**/project/**.sbt"] |} ].

Definition findPackageManager (id0 : string) : M PackageManager :=
  match find (fun packageManager => String.eqb (id packageManager) id0)
             supportedPackageManager with
  | None => throw (new_Error ("unknown package manager specified: " ++ id0))
  | Some packageManager => ret packageManager
  end.

(** [glob.hashFiles(patterns)] *)
Definition glob_hashFiles (patterns : string) : M (option string) :=
  call (EvHashFiles patterns) (Returns (hashFiles env patterns)).

(** [cache.restoreCache(paths, primaryKey, restoreKeys)] *)
Definition cache_restoreCache (paths : list string) (primaryKey : string)
    (restoreKeys : list string) : M (option string) :=
  call (EvRestoreCache paths primaryKey restoreKeys)
       (restoreCache env paths primaryKey restoreKeys).

(** [cache.saveCache(paths, key)] *)
Definition cache_saveCache (paths : list string) (key : string) : M Z :=
  call (EvSaveCache paths key) (saveCache env paths key).

(** The patterns that [computeCacheKey] hashes: the override, trimmed and
    split on line feeds, when it is a non-empty string; the defaults of the
    package manager otherwise. *)
Definition effective_pattern (packageManager : PackageManager)
    (cacheDependencyPath : option string) : list string :=
  match cacheDependencyPath with
  | Some s => if Js.truthy s then Js.split_lf (Js.trim s) else pattern packageManager
  | None => pattern packageManager
  end.

Definition computeCacheKey (packageManager : PackageManager)
    (cacheDependencyPath : option string) : M string :=
  let pattern := effective_pattern packageManager cacheDependencyPath in
  do fileHash <- glob_hashFiles (Js.join Js.NL pattern);
  if negb (Js.truthy_opt fileHash) then
    throw (new_Error ("No file in " ++ cwd env ++ " matched to ["
                      ++ Js.array_toString pattern
                      ++ "], make sure you have checked out the target repository"))
  else
    ret (CACHE_KEY_PREFIX ++ "-" ++ Js.template (RUNNER_OS env) ++ "-"
         ++ id packageManager ++ "-" ++ Js.template fileHash).

Definition restore (id0 : string) (cacheDependencyPath : option string)
    (performRestore : bool) : M unit :=
  do packageManager <- findPackageManager id0;
  do primaryKey <- computeCacheKey packageManager cacheDependencyPath;
  run core.debug ("primary key is " ++ primaryKey);
  run core.saveState STATE_CACHE_PRIMARY_KEY primaryKey;
  if performRestore then
    do matchedKey <- cache_restoreCache (path packageManager) primaryKey
        [CACHE_KEY_PREFIX ++ "-" ++ Js.template (RUNNER_OS env) ++ "-"
         ++ id packageManager];
    if Js.truthy_opt matchedKey then
      (* here [matchedKey] is a string, [Js.template matchedKey] *)
      run core.saveState CACHE_MATCHED_KEY (Js.template matchedKey);
      run core.setOutput "cache-hit" (Js.strict_eq matchedKey primaryKey);
      core.info ("Cache restored from key: " ++ Js.template matchedKey)
    else
      run core.setOutput "cache-hit" false;
      core.info (id packageManager ++ " cache is not found for key " ++ primaryKey)
  else ret tt.

Definition isProbablyGradleDaemonProblem (packageManager : PackageManager)
    (error : JsError) : bool :=
  if negb (String.eqb (id packageManager) "gradle")
     || negb (Js.strict_eq (RUNNER_OS env) "Windows")
  then false
  else
    let message := Js.or_empty (message error) in
    Js.startsWith message "Tar failed with error: ".

Definition gradle_daemon_warning : string :=
  "Failed to save Gradle cache on Windows. If tar.exe reported "
  ++ Js.DQUOTE ++ "Permission denied" ++ Js.DQUOTE
  ++ ", try to run Gradle with `--no-daemon` option. Refer to https://github.com/actions/cache/issues/454 for details.".

(** The [try]/[catch] statement that ends [save]. *)
Definition save_attempt (packageManager : PackageManager) (primaryKey : string)
    : M unit :=
  try_catch
    (run cache_saveCache (path packageManager) primaryKey;
     core.info ("Cache saved with the key: " ++ primaryKey))
    (fun err =>
       if String.eqb (name err) ReserveCacheError_name then
         core.info (message err)
       else
         run (if isProbablyGradleDaemonProblem packageManager err
              then core.warning gradle_daemon_warning
              else ret tt);
         throw err).

Definition save (id0 : string) (forceUpdate : bool) : M unit :=
  do packageManager <- findPackageManager id0;
  do matchedKey <- core.getState CACHE_MATCHED_KEY;
  do primaryKey <- core.getState STATE_CACHE_PRIMARY_KEY;
  if negb forceUpdate then
    if negb (Js.truthy primaryKey) then
      core.warning "Error retrieving key from state."
    else if String.eqb matchedKey primaryKey then
      core.info ("Cache hit occurred on the primary key " ++ primaryKey
                 ++ ", not saving cache.")
    else save_attempt packageManager primaryKey
  else save_attempt packageManager primaryKey.

End Cache.

(** ** Vocabulary of the properties *)

(** The identities of the interface [PackageManager]. *)
Definition supported_ids : list string := ["maven"; "gradle"; "sbt"].

(** The world [w] after the actions [evs], state and outputs untouched. *)
Definition with_trace (w : World) (evs : list Event) : World :=
  {| state := state w; outputs := outputs w; trace := (trace w ++ evs)%list |}.

(** The value [core.getState] reads from a slot. *)
Definition slot (w : World) (key : string) : string :=
  default EmptyString (state w !! key).

Definition is_store_call (e : Event) : bool :=
  match e with
  | EvRestoreCache _ _ _ | EvSaveCache _ _ => true
  | _ => false
  end.

Definition is_state_write (key : string) (e : Event) : bool :=
  match e with
  | EvSaveState k _ => String.eqb k key
  | _ => false
  end.

(** A hash that [computeCacheKey] rejects: [undefined] or the empty string. *)
Definition empty_hash (h : option string) : Prop :=
  h = None \/ h = Some EmptyString.

(** The platform part of a key: [`${process.env['RUNNER_OS']}`]. *)
Definition platform (env : Env) : string := Js.template (RUNNER_OS env).

(** The actions of a run from [w] to [w'] are [evs]. *)
Definition new_events (w w' : World) (evs : list Event) : Prop :=
  trace w' = (trace w ++ evs)%list.

(** The key a run of [computeCacheKey] returned, if it returned one. *)
Definition returned_key (r : Result string * World) : option string :=
  match fst r with
  | Returns key => Some key
  | Throws _ => None
  end.

(** The world once [restore] has computed the key [key] from the patterns
    [patterns], logged it and persisted it. *)
Definition after_key (w : World) (patterns key : string) : World :=
  {| state := <[ STATE_CACHE_PRIMARY_KEY := key ]> (state w);
     outputs := outputs w;
     trace := (trace w ++ [EvHashFiles patterns;
                           EvDebug ("primary key is " ++ key);
                           EvSaveState STATE_CACHE_PRIMARY_KEY key])%list |}.

(** An answer of the artifact store that [restore] takes as no match:
    [undefined], or the empty string. *)
Definition no_match (m : option string) : Prop :=
  m = None \/ m = Some EmptyString.

(** ** Sample environments and worlds *)

Module Sample.

Definition posix_join (parts : list string) : string := Js.join "/" parts.

Definition hash_pom (patterns : string) : option string :=
  if String.eqb patterns "**/pom.xml" then Some "0a1b2c" else None.

Definition linux : Env :=
  {| RUNNER_OS := Some "Linux";
     cwd := "/work/project";
     homedir := "/home/runner";
     os_type := "Linux";
     path_join := posix_join;
     hashFiles := hash_pom;
     restoreCache := fun _ _ _ => Returns None;
     saveCache := fun _ _ => Returns 7%Z |}.

(** A store that has the exact key. *)
Definition linux_hit : Env :=
  {| RUNNER_OS := Some "Linux";
     cwd := "/work/project";
     homedir := "/home/runner";
     os_type := "Linux";
     path_join := posix_join;
     hashFiles := hash_pom;
     restoreCache := fun _ key _ => Returns (Some key);
     saveCache := fun _ _ => Returns 7%Z |}.

(** A Windows runner on which [tar] fails. *)
Definition windows_tar : Env :=
  {| RUNNER_OS := Some "Windows";
     cwd := "D:\a\project";
     homedir := "C:\Users\runner";
     os_type := "Windows_NT";
     path_join := Js.join "\";
     hashFiles := fun _ => Some "0a1b2c";
     restoreCache := fun _ _ _ => Returns None;
     saveCache := fun _ _ =>
       Throws {| name := "Error"; message := "Tar failed with error: exit code 2" |} |}.

(** A store on which another job holds the key. *)
Definition linux_reserved : Env :=
  {| RUNNER_OS := Some "Linux";
     cwd := "/work/project";
     homedir := "/home/runner";
     os_type := "Linux";
     path_join := posix_join;
     hashFiles := hash_pom;
     restoreCache := fun _ _ _ => Returns None;
     saveCache := fun _ _ =>
       Throws {| name := ReserveCacheError_name;
                 message := "Unable to reserve cache with key k, another job may be creating this cache." |} |}.

(** The world before [restore] ran. *)
Definition fresh : World :=
  {| state := ∅; outputs := ∅; trace := [] |}.

(** The world after a [restore] that missed. *)
Definition after_miss : World :=
  {| state := {[ STATE_CACHE_PRIMARY_KEY := "setup-java-Linux-maven-0a1b2c" ]};
     outputs := ∅;
     trace := [] |}.

(** The world after a [restore] that hit the primary key. *)
Definition after_hit : World :=
  {| state := <[ CACHE_MATCHED_KEY := "setup-java-Linux-maven-0a1b2c" ]>
                {[ STATE_CACHE_PRIMARY_KEY := "setup-java-Linux-maven-0a1b2c" ]};
     outputs := ∅;
     trace := [] |}.

(** The maven entry of the registry of [linux]. *)
Definition maven : PackageManager :=
  {| id := "maven";
     path := ["/home/runner/.m2/repository"];
     pattern := ["**/pom.xml"] |}.

(** The gradle entry of the registry of [windows_tar]. *)
Definition gradle_windows : PackageManager :=
  {| id := "gradle";
     path := ["C:\Users\runner\.gradle\caches"];
     pattern := ["gradle/wrapper/gradle-wrapper.properties";
                 "gradle.properties*";
                 "settings.gradle*"] |}.

End Sample.


(** ** Vocabulary of the further properties *)

(** A string of white space and line terminators only. *)
Fixpoint all_whitespace (s : string) : bool :=
  match s with
  | EmptyString => true
  | String c s' => Js.isWhiteSpace c && all_whitespace s'
  end.

(** The actions [restore] may take. *)
Definition restore_action (e : Event) : bool :=
  match e with
  | EvHashFiles _ | EvDebug _ | EvSaveState _ _ | EvRestoreCache _ _ _
  | EvSetOutput _ _ | EvInfo _ => true
  | EvWarning _ | EvSaveCache _ _ => false
  end.

(** The actions [save] may take. *)
Definition save_action (e : Event) : bool :=
  match e with
  | EvSaveCache _ _ | EvInfo _ | EvWarning _ => true
  | _ => false
  end.

(** The error of [findPackageManager]. *)
Definition unknown_package_manager_error (id0 : string) : JsError :=
  new_Error ("unknown package manager specified: " ++ id0).

(** The error of [computeCacheKey]. *)
Definition no_file_error (env : Env) (patterns : list string) : JsError :=
  new_Error ("No file in " ++ cwd env ++ " matched to ["
             ++ Js.array_toString patterns
             ++ "], make sure you have checked out the target repository").

(** The primary key for the hash [h]. *)
Definition primary_key (env : Env) (pm : PackageManager) (h : string) : string :=
  CACHE_KEY_PREFIX ++ "-" ++ platform env ++ "-" ++ id pm ++ "-" ++ h.

(** The restore key that [restore] hands to the store. *)
Definition restore_key (env : Env) (pm : PackageManager) : string :=
  CACHE_KEY_PREFIX ++ "-" ++ platform env ++ "-" ++ id pm.

Module Scenario.

(** A store whose restore fails. *)
Definition linux_offline : Env :=
  {| RUNNER_OS := Some "Linux";
     cwd := "/work/project";
     homedir := "/home/runner";
     os_type := "Linux";
     path_join := Sample.posix_join;
     hashFiles := Sample.hash_pom;
     restoreCache := fun _ _ _ =>
       Throws {| name := "Error"; message := "Cache service responded with 503" |};
     saveCache := fun _ _ =>
       Throws {| name := "ValidationError"; message := "Validation failed" |} |}.

(** A store that reports an older entry, found by the restore key. *)
Definition linux_fallback : Env :=
  {| RUNNER_OS := Some "Linux";
     cwd := "/work/project";
     homedir := "/home/runner";
     os_type := "Linux";
     path_join := Sample.posix_join;
     hashFiles := Sample.hash_pom;
     restoreCache := fun _ _ _ => Returns (Some "setup-java-Linux-maven-ffff");
     saveCache := fun _ _ => Returns (-1)%Z |}.

(** The post action of the job of [Sample.linux]: the files changed
    meanwhile, so the hashing primitive has another answer. *)
Definition linux_post : Env :=
  {| RUNNER_OS := Some "Linux";
     cwd := "/work/project";
     homedir := "/home/runner";
     os_type := "Linux";
     path_join := Sample.posix_join;
     hashFiles := fun _ => Some "9z9z9z";
     restoreCache := fun _ _ _ => Returns None;
     saveCache := fun _ _ => Returns 7%Z |}.

End Scenario.

(** ** Properties of the string primitives *)

Lemma append_cons (c : ascii) (s t : string) :
  String c s ++ t = String c (s ++ t).
Proof. reflexivity. Qed.

Lemma append_empty_l (s : string) : EmptyString ++ s = s.
Proof. reflexivity. Qed.

Lemma append_empty_r (s : string) : s ++ EmptyString = s.
Proof.
  induction s as [| c s IH]; [reflexivity |].
  now rewrite append_cons, IH.
Qed.

Lemma append_assoc (a b c : string) : (a ++ b) ++ c = a ++ b ++ c.
Proof.
  induction a as [| x a IH]; [reflexivity |].
  now rewrite !append_cons, IH.
Qed.

Lemma includes_refl (s : string) : Js.includes s s.
Proof.
  exists EmptyString, EmptyString.
  now rewrite append_empty_l, append_empty_r.
Qed.

Lemma truthy_spec (s : string) : Js.truthy s = true <-> s <> EmptyString.
Proof. destruct s; simpl; split; congruence. Qed.

Lemma truthy_false (s : string) : Js.truthy s = false <-> s = EmptyString.
Proof. destruct s; simpl; split; congruence. Qed.

Lemma truthy_opt_false (h : option string) :
  Js.truthy_opt h = false <-> empty_hash h.
Proof.
  unfold empty_hash. destruct h as [[| c s] |]; simpl; split; intros H;
    try reflexivity; try discriminate; auto; destruct H; discriminate.
Qed.

Lemma split_lf_nonempty (s : string) : Js.split_lf s <> [].
Proof.
  induction s as [| c s IH]; simpl; [discriminate |].
  destruct (Ascii.eqb c Js.LF); [discriminate |].
  destruct (Js.split_lf s); discriminate.
Qed.

(** Splitting on line feeds and joining with line feeds gives the string
    back: [s.split('\n').join('\n') === s]. *)
Lemma join_split_lf (s : string) : Js.join Js.NL (Js.split_lf s) = s.
Proof.
  induction s as [| c s IH]; simpl; [reflexivity |].
  destruct (Ascii.eqb_spec c Js.LF) as [-> | Hc].
  - pose proof (split_lf_nonempty s) as Hne.
    destruct (Js.split_lf s) as [| p ps] eqn:E; [congruence |].
    change (Js.join Js.NL (EmptyString :: p :: ps))
      with (EmptyString ++ Js.NL ++ Js.join Js.NL (p :: ps)).
    rewrite IH. reflexivity.
  - pose proof (split_lf_nonempty s) as Hne.
    destruct (Js.split_lf s) as [| p ps] eqn:E; [congruence |].
    destruct ps as [| q qs].
    + simpl in *. now rewrite IH.
    + change (Js.join Js.NL (String c p :: q :: qs))
        with (String c (p ++ Js.NL ++ Js.join Js.NL (q :: qs))).
      change (Js.join Js.NL (p :: q :: qs))
        with (p ++ Js.NL ++ Js.join Js.NL (q :: qs)) in IH.
      now rewrite IH.
Qed.

(** ** The registry *)

Lemma find_supported (env : Env) (id0 : string) :
  In id0 supported_ids ->
  exists pm,
    find (fun packageManager => String.eqb (id packageManager) id0)
         (supportedPackageManager env) = Some pm
    /\ In pm (supportedPackageManager env) /\ id pm = id0.
Proof.
  intros [<- | [<- | [<- | []]]]; eexists; (split; [reflexivity |]);
    simpl; auto 6.
Qed.

Lemma find_unsupported (env : Env) (id0 : string) :
  ~ In id0 supported_ids ->
  find (fun packageManager => String.eqb (id packageManager) id0)
       (supportedPackageManager env) = None.
Proof.
  intros Hno. unfold supported_ids in Hno. simpl in Hno.
  unfold supportedPackageManager, find, id.
  destruct (String.eqb_spec "maven" id0); [tauto |].
  destruct (String.eqb_spec "gradle" id0); [tauto |].
  destruct (String.eqb_spec "sbt" id0); [tauto |].
  reflexivity.
Qed.

Lemma findPackageManager_unsupported (env : Env) (id0 : string) (w : World) :
  ~ In id0 supported_ids ->
  findPackageManager env id0 w
  = (Throws (new_Error ("unknown package manager specified: " ++ id0)), w).
Proof.
  intros Hno. unfold findPackageManager. now rewrite find_unsupported.
Qed.

(** C8.  For an identity outside maven, gradle and sbt, [restore] and [save]
    both throw an error whose message is (so contains) "unknown package
    manager specified: " followed by the identity, and leave the world as
    it was: no state write, no hashing, no call to the artifact store. *)
Theorem unknown_package_manager (env : Env) (id0 : string)
    (cacheDependencyPath : option string) (performRestore forceUpdate : bool)
    (w : World) :
  ~ In id0 supported_ids ->
  let msg := "unknown package manager specified: " ++ id0 in
  exists e,
    restore env id0 cacheDependencyPath performRestore w = (Throws e, w)
    /\ save env id0 forceUpdate w = (Throws e, w)
    /\ message e = msg
    /\ Js.includes (message e) msg.
Proof.
  intros Hno msg. exists (new_Error msg).
  unfold restore, save, bind.
  rewrite (findPackageManager_unsupported env id0 w Hno).
  repeat split; try reflexivity. apply includes_refl.
Qed.

Lemma unknown_package_manager_witness :
  ~ In "ant" supported_ids
  /\ exists e,
       restore Sample.linux "ant" None true Sample.fresh = (Throws e, Sample.fresh)
       /\ save Sample.linux "ant" false Sample.fresh = (Throws e, Sample.fresh)
       /\ message e = "unknown package manager specified: ant"
       /\ Js.includes (message e) "unknown package manager specified: ant".
Proof.
  assert (H : ~ In "ant" supported_ids).
  { simpl. intros [H | [H | [H | []]]]; discriminate H. }
  split; [exact H |].
  exact (unknown_package_manager Sample.linux "ant" None true false Sample.fresh H).
Defined.

(** ** The cases of the test suite, run on the embedding *)

Example split_of_trimmed_override :
  Js.split_lf (Js.trim ("*.gradle*" ++ Js.NL ++ "sub-project2/**/*.gradle*" ++ Js.NL))
  = ["*.gradle*"; "sub-project2/**/*.gradle*"].
Proof. reflexivity. Qed.

Example split_of_blank_override :
  Js.split_lf (Js.trim "   ") = [EmptyString].
Proof. reflexivity. Qed.

Example restore_ant_throws :
  restore Sample.linux "ant" (Some EmptyString) true Sample.fresh
  = (Throws (new_Error "unknown package manager specified: ant"), Sample.fresh).
Proof. reflexivity. Qed.

Example restore_sbt_without_build_file :
  fst (restore Sample.linux "sbt" (Some EmptyString) true Sample.fresh)
  = Throws (new_Error
      "No file in /work/project matched to [**/*.sbt,**/project/build.properties,**/project/**.scala,**/project/**.sbt], make sure you have checked out the target repository").
Proof. reflexivity. Qed.

Example restore_maven_miss :
  trace (snd (restore Sample.linux "maven" (Some EmptyString) true Sample.fresh))
  = [EvHashFiles "**/pom.xml";
     EvDebug "primary key is setup-java-Linux-maven-0a1b2c";
     EvSaveState "cache-primary-key" "setup-java-Linux-maven-0a1b2c";
     EvRestoreCache ["/home/runner/.m2/repository"]
       "setup-java-Linux-maven-0a1b2c" ["setup-java-Linux-maven"];
     EvSetOutput "cache-hit" false;
     EvInfo "maven cache is not found for key setup-java-Linux-maven-0a1b2c"].
Proof. reflexivity. Qed.

Example restore_gradle_override :
  trace (snd (restore Sample.windows_tar "gradle"
                (Some ("sub-project1/**/*.gradle*" ++ Js.NL)) false Sample.fresh))
  = [EvHashFiles "sub-project1/**/*.gradle*";
     EvDebug "primary key is setup-java-Windows-gradle-0a1b2c";
     EvSaveState "cache-primary-key" "setup-java-Windows-gradle-0a1b2c"].
Proof. reflexivity. Qed.

Example save_without_restore :
  save Sample.linux "sbt" false Sample.fresh
  = (Returns tt,
     with_trace Sample.fresh [EvWarning "Error retrieving key from state."]).
Proof. reflexivity. Qed.

Example save_after_miss :
  trace (snd (save Sample.linux "maven" false Sample.after_miss))
  = [EvSaveCache ["/home/runner/.m2/repository"] "setup-java-Linux-maven-0a1b2c";
     EvInfo "Cache saved with the key: setup-java-Linux-maven-0a1b2c"].
Proof. reflexivity. Qed.

Example save_after_hit :
  trace (snd (save Sample.linux "maven" false Sample.after_hit))
  = [EvInfo "Cache hit occurred on the primary key setup-java-Linux-maven-0a1b2c, not saving cache."].
Proof. reflexivity. Qed.

Example save_reserved_is_swallowed :
  fst (save Sample.linux_reserved "maven" false Sample.after_miss) = Returns tt.
Proof. reflexivity. Qed.

(** ** The key *)

(** The message of the error for a hash that matched no file. *)
Lemma computeCacheKey_no_file (env : Env) (pm : PackageManager)
    (o : option string) (w : World) :
  let patterns := effective_pattern pm o in
  empty_hash (hashFiles env (Js.join Js.NL patterns)) ->
  computeCacheKey env pm o w
  = (Throws (new_Error ("No file in " ++ cwd env ++ " matched to ["
                        ++ Js.array_toString patterns
                        ++ "], make sure you have checked out the target repository")),
     with_trace w [EvHashFiles (Js.join Js.NL patterns)]).
Proof.
  intros patterns Hh. apply truthy_opt_false in Hh.
  unfold computeCacheKey, bind, glob_hashFiles, call, with_trace.
  fold patterns. now rewrite Hh.
Qed.

Lemma computeCacheKey_hashed (env : Env) (pm : PackageManager)
    (o : option string) (w : World) (h : string) :
  let patterns := effective_pattern pm o in
  hashFiles env (Js.join Js.NL patterns) = Some h ->
  h <> EmptyString ->
  computeCacheKey env pm o w
  = (Returns (CACHE_KEY_PREFIX ++ "-" ++ platform env ++ "-" ++ id pm ++ "-" ++ h),
     with_trace w [EvHashFiles (Js.join Js.NL patterns)]).
Proof.
  intros patterns Hh Hne. apply truthy_spec in Hne.
  unfold computeCacheKey, bind, glob_hashFiles, call, with_trace.
  fold patterns. rewrite Hh. simpl. now rewrite Hne.
Qed.

(** Every hash is rejected or is a non-empty string. *)
Lemma hash_cases (h : option string) :
  empty_hash h \/ exists s, h = Some s /\ s <> EmptyString.
Proof.
  destruct h as [[| c s] |]; unfold empty_hash; auto.
  right. exists (String c s). split; [reflexivity | discriminate].
Qed.

(** C4.  [computeCacheKey] is deterministic: two calls, in any two worlds
    and in environments that agree on RUNNER_OS and on what the hashing
    primitive answers for the effective patterns, for the same package
    manager and the same override, return the same key or both return
    none; the working directory, the persisted state and the trace have no
    part in the key.  So do two calls in a row. *)
Theorem computeCacheKey_deterministic (env1 env2 : Env) (pm : PackageManager)
    (o : option string) (w1 w2 : World) :
  RUNNER_OS env1 = RUNNER_OS env2 ->
  hashFiles env1 (Js.join Js.NL (effective_pattern pm o))
  = hashFiles env2 (Js.join Js.NL (effective_pattern pm o)) ->
  returned_key (computeCacheKey env1 pm o w1)
  = returned_key (computeCacheKey env2 pm o w2)
  /\ returned_key (computeCacheKey env1 pm o (snd (computeCacheKey env1 pm o w1)))
     = returned_key (computeCacheKey env1 pm o w1).
Proof.
  intros Hos Hh.
  set (p := Js.join Js.NL (effective_pattern pm o)) in *.
  destruct (hash_cases (hashFiles env1 p)) as [He | (h & Hs & Hne)].
  - assert (He2 : empty_hash (hashFiles env2 p)) by now rewrite <- Hh.
    rewrite !(computeCacheKey_no_file env1 pm o _ He).
    rewrite (computeCacheKey_no_file env2 pm o _ He2). split; reflexivity.
  - assert (Hs2 : hashFiles env2 p = Some h) by now rewrite <- Hh.
    rewrite !(computeCacheKey_hashed env1 pm o _ h Hs Hne).
    rewrite (computeCacheKey_hashed env2 pm o _ h Hs2 Hne).
    unfold platform. rewrite Hos. split; reflexivity.
Qed.

Lemma computeCacheKey_deterministic_witness :
  RUNNER_OS Sample.linux = RUNNER_OS Sample.linux_hit
  /\ hashFiles Sample.linux (Js.join Js.NL (effective_pattern
       {| id := "maven"; path := []; pattern := ["**/pom.xml"] |} None))
     = hashFiles Sample.linux_hit (Js.join Js.NL (effective_pattern
       {| id := "maven"; path := []; pattern := ["**/pom.xml"] |} None))
  /\ returned_key (computeCacheKey Sample.linux
       {| id := "maven"; path := []; pattern := ["**/pom.xml"] |} None Sample.fresh)
     = returned_key (computeCacheKey Sample.linux_hit
       {| id := "maven"; path := []; pattern := ["**/pom.xml"] |} None Sample.after_hit).
Proof.
  split; [reflexivity |]. split; [reflexivity |].
  apply (computeCacheKey_deterministic Sample.linux Sample.linux_hit
           {| id := "maven"; path := []; pattern := ["**/pom.xml"] |} None
           Sample.fresh Sample.after_hit); reflexivity.
Defined.

(** C5.  [computeCacheKey] throws exactly when the hashing primitive
    answers [undefined] or the empty string; the message of the error is
    "No file in <cwd> matched to [<effective patterns, comma separated>],
    make sure you have checked out the target repository"; and a returned
    key ends with the non-empty hash, never with an empty one. *)
Theorem computeCacheKey_fails_iff_no_hash (env : Env) (pm : PackageManager)
    (o : option string) (w : World) :
  let patterns := effective_pattern pm o in
  let hash := hashFiles env (Js.join Js.NL patterns) in
  ((exists e, fst (computeCacheKey env pm o w) = Throws e) <-> empty_hash hash)
  /\ (forall e, fst (computeCacheKey env pm o w) = Throws e ->
        message e = "No file in " ++ cwd env ++ " matched to ["
                    ++ Js.array_toString patterns
                    ++ "], make sure you have checked out the target repository"
        /\ Js.includes (message e)
             ("No file in " ++ cwd env ++ " matched to ["
              ++ Js.array_toString patterns ++ "]"))
  /\ (forall key, fst (computeCacheKey env pm o w) = Returns key ->
        exists h, hash = Some h /\ h <> EmptyString
                  /\ key = CACHE_KEY_PREFIX ++ "-" ++ platform env ++ "-"
                           ++ id pm ++ "-" ++ h).
Proof.
  intros patterns hash.
  destruct (hash_cases hash) as [He | (h & Hs & Hne)].
  - pose proof (computeCacheKey_no_file env pm o w He) as Hrun.
    fold patterns in Hrun. rewrite Hrun. simpl. split; [| split].
    + split; [intros _; exact He | intros _; eauto].
    + intros e [= <-]. simpl. split; [reflexivity |].
      exists EmptyString, ", make sure you have checked out the target repository".
      rewrite append_empty_l, !append_assoc. reflexivity.
    + intros key [=].
  - pose proof (computeCacheKey_hashed env pm o w h Hs Hne) as Hrun.
    fold patterns in Hrun. rewrite Hrun. simpl. split; [| split].
    + split.
      * intros (e & [=]).
      * intros [Hn | Hn]; congruence.
    + intros e [=].
    + intros key [= <-]. exists h. auto.
Qed.

(** C6.  A non-empty override replaces the default patterns: the one call
    to the hashing primitive gets the trimmed override split on line feeds
    (joined with line feeds again, which is the trimmed override itself),
    whatever the defaults of the package manager are.  Without an override
    ([undefined] or the empty string) the call gets the defaults. *)
Theorem override_replaces_default_patterns (env : Env) (pm : PackageManager)
    (s : string) (w : World) :
  s <> EmptyString ->
  (effective_pattern pm (Some s) = Js.split_lf (Js.trim s)
   /\ snd (computeCacheKey env pm (Some s) w)
      = with_trace w [EvHashFiles (Js.join Js.NL (Js.split_lf (Js.trim s)))]
   /\ Js.join Js.NL (Js.split_lf (Js.trim s)) = Js.trim s)
  /\ (effective_pattern pm None = pattern pm
      /\ snd (computeCacheKey env pm None w)
         = with_trace w [EvHashFiles (Js.join Js.NL (pattern pm))])
  /\ (effective_pattern pm (Some EmptyString) = pattern pm
      /\ snd (computeCacheKey env pm (Some EmptyString) w)
         = with_trace w [EvHashFiles (Js.join Js.NL (pattern pm))]).
Proof.
  intros Hs.
  assert (Heff : effective_pattern pm (Some s) = Js.split_lf (Js.trim s)).
  { unfold effective_pattern. apply truthy_spec in Hs. now rewrite Hs. }
  assert (Hrun : forall o,
    snd (computeCacheKey env pm o w)
    = with_trace w [EvHashFiles (Js.join Js.NL (effective_pattern pm o))]).
  { intros o.
    destruct (hash_cases (hashFiles env (Js.join Js.NL (effective_pattern pm o))))
      as [He | (h & Hh & Hne)].
    - now rewrite (computeCacheKey_no_file env pm o w He).
    - now rewrite (computeCacheKey_hashed env pm o w h Hh Hne). }
  repeat split.
  - exact Heff.
  - rewrite Hrun, Heff. reflexivity.
  - apply join_split_lf.
  - apply Hrun.
  - apply Hrun.
Qed.

Lemma override_replaces_default_patterns_witness :
  "sub-project1/**/*.gradle*" ++ Js.NL <> EmptyString
  /\ snd (computeCacheKey Sample.linux
            {| id := "gradle"; path := []; pattern := ["settings.gradle*"] |}
            (Some ("sub-project1/**/*.gradle*" ++ Js.NL)) Sample.fresh)
     = with_trace Sample.fresh [EvHashFiles "sub-project1/**/*.gradle*"].
Proof.
  assert (H : "sub-project1/**/*.gradle*" ++ Js.NL <> EmptyString)
    by (vm_compute; discriminate).
  split; [exact H |].
  exact (proj1 (proj2 (proj1
    (override_replaces_default_patterns Sample.linux
       {| id := "gradle"; path := []; pattern := ["settings.gradle*"] |}
       ("sub-project1/**/*.gradle*" ++ Js.NL) Sample.fresh H)))).
Defined.

(** C9.  When the hashing primitive answers a non-empty hash,
    [computeCacheKey] returns exactly
    "setup-java-<platform>-<package manager id>-<hash>", the platform being
    the text of RUNNER_OS, and its only action is the call to the hashing
    primitive. *)
Theorem computeCacheKey_format (env : Env) (pm : PackageManager)
    (o : option string) (w : World) (os h : string) :
  RUNNER_OS env = Some os ->
  hashFiles env (Js.join Js.NL (effective_pattern pm o)) = Some h ->
  h <> EmptyString ->
  computeCacheKey env pm o w
  = (Returns ("setup-java" ++ "-" ++ os ++ "-" ++ id pm ++ "-" ++ h),
     with_trace w [EvHashFiles (Js.join Js.NL (effective_pattern pm o))]).
Proof.
  intros Hos Hh Hne.
  rewrite (computeCacheKey_hashed env pm o w h Hh Hne).
  unfold platform. now rewrite Hos.
Qed.

Lemma computeCacheKey_format_witness :
  RUNNER_OS Sample.linux = Some "Linux"
  /\ hashFiles Sample.linux (Js.join Js.NL (effective_pattern
       {| id := "maven"; path := []; pattern := ["**/pom.xml"] |} None))
     = Some "0a1b2c"
  /\ "0a1b2c" <> EmptyString
  /\ computeCacheKey Sample.linux
       {| id := "maven"; path := []; pattern := ["**/pom.xml"] |} None Sample.fresh
     = (Returns "setup-java-Linux-maven-0a1b2c",
        with_trace Sample.fresh [EvHashFiles "**/pom.xml"]).
Proof.
  assert (Hne : "0a1b2c" <> EmptyString) by discriminate.
  split; [reflexivity |]. split; [reflexivity |]. split; [exact Hne |].
  exact (computeCacheKey_format Sample.linux
           {| id := "maven"; path := []; pattern := ["**/pom.xml"] |} None
           Sample.fresh "Linux" "0a1b2c" eq_refl eq_refl Hne).
Defined.

(** ** Restore *)

Lemma findPackageManager_registered (env : Env) (pm : PackageManager) (w : World) :
  In pm (supportedPackageManager env) ->
  findPackageManager env (id pm) w = (Returns pm, w).
Proof.
  intros [<- | [<- | [<- | []]]]; reflexivity.
Qed.

(** The identities of the registry are maven, gradle and sbt. *)
Lemma registry_ids (env : Env) (id0 : string) :
  In id0 supported_ids
  <-> exists pm, In pm (supportedPackageManager env) /\ id pm = id0.
Proof.
  split.
  - intros Hin. destruct (find_supported env id0 Hin) as (pm & _ & Hpm & Hid).
    eauto.
  - intros (pm & [<- | [<- | [<- | []]]] & <-); simpl; auto.
Qed.

(** Runs the primitives of the monad and flattens the trace. *)
Ltac step_world :=
  unfold core.debug, core.info, core.warning, core.saveState, core.setOutput,
    core.getState;
  unfold bind, ret, throw, try_catch, call, emit, with_trace;
  simpl; rewrite <- ?app_assoc; simpl; try reflexivity.

(** [restore] up to the test of [performRestore]. *)
Lemma restore_run (env : Env) (pm : PackageManager) (o : option string)
    (performRestore : bool) (w : World) (h : string) :
  In pm (supportedPackageManager env) ->
  hashFiles env (Js.join Js.NL (effective_pattern pm o)) = Some h ->
  h <> EmptyString ->
  let key := CACHE_KEY_PREFIX ++ "-" ++ platform env ++ "-" ++ id pm ++ "-" ++ h in
  let w1 := after_key w (Js.join Js.NL (effective_pattern pm o)) key in
  let restoreKeys := [CACHE_KEY_PREFIX ++ "-" ++ platform env ++ "-" ++ id pm] in
  restore env (id pm) o performRestore w
  = if performRestore then
      match restoreCache env (path pm) key restoreKeys with
      | Throws e =>
          (Throws e, with_trace w1 [EvRestoreCache (path pm) key restoreKeys])
      | Returns matchedKey =>
          if Js.truthy_opt matchedKey then
            (Returns tt,
             {| state := <[ CACHE_MATCHED_KEY := Js.template matchedKey ]> (state w1);
                outputs := <[ "cache-hit" := Js.strict_eq matchedKey key ]> (outputs w1);
                trace := (trace w1 ++
                  [EvRestoreCache (path pm) key restoreKeys;
                   EvSaveState CACHE_MATCHED_KEY (Js.template matchedKey);
                   EvSetOutput "cache-hit" (Js.strict_eq matchedKey key);
                   EvInfo ("Cache restored from key: " ++ Js.template matchedKey)])%list |})
          else
            (Returns tt,
             {| state := state w1;
                outputs := <[ "cache-hit" := false ]> (outputs w1);
                trace := (trace w1 ++
                  [EvRestoreCache (path pm) key restoreKeys;
                   EvSetOutput "cache-hit" false;
                   EvInfo (id pm ++ " cache is not found for key " ++ key)])%list |})
      end
    else (Returns tt, w1).
Proof.
  intros Hpm Hh Hne key w1 restoreKeys.
  unfold restore, bind.
  rewrite (findPackageManager_registered env pm w Hpm).
  rewrite (computeCacheKey_hashed env pm o w h Hh Hne).
  fold key. unfold platform in restoreKeys. fold restoreKeys.
  destruct performRestore; [| unfold w1, after_key; step_world].
  unfold cache_restoreCache, call, core.debug, core.saveState, emit. simpl.
  fold key. fold restoreKeys.
  destruct (restoreCache env (path pm) key restoreKeys) as [m | e].
  - destruct (Js.truthy_opt m); unfold w1, after_key; step_world.
  - unfold w1, after_key; step_world.
Qed.

Lemma matched_slot_is_not_primary_slot :
  CACHE_MATCHED_KEY <> STATE_CACHE_PRIMARY_KEY.
Proof. discriminate. Qed.

(** C2.  For a package manager of the registry whose patterns hash to a
    non-empty hash, [restore] persists the computed primary key in the
    primary-key slot whatever [performRestore] is (and whatever the store
    answers); with [performRestore] it calls the store's restore once, with
    the cache paths of the descriptor, the primary key and the one fallback
    key "setup-java-<platform>-<id>"; without, it makes no call to the
    store and does not write the matched-key slot. *)
Theorem restore_persists_primary_key (env : Env) (pm : PackageManager)
    (o : option string) (performRestore : bool) (w : World) (h : string) :
  In pm (supportedPackageManager env) ->
  hashFiles env (Js.join Js.NL (effective_pattern pm o)) = Some h ->
  h <> EmptyString ->
  let key := CACHE_KEY_PREFIX ++ "-" ++ platform env ++ "-" ++ id pm ++ "-" ++ h in
  let w' := snd (restore env (id pm) o performRestore w) in
  exists evs,
    new_events w w' evs
    /\ state w' !! STATE_CACHE_PRIMARY_KEY = Some key
    /\ List.filter (is_state_write STATE_CACHE_PRIMARY_KEY) evs
       = [EvSaveState STATE_CACHE_PRIMARY_KEY key]
    /\ (performRestore = true ->
        List.filter is_store_call evs
        = [EvRestoreCache (path pm) key
             [CACHE_KEY_PREFIX ++ "-" ++ platform env ++ "-" ++ id pm]])
    /\ (performRestore = false ->
        List.filter is_store_call evs = []
        /\ List.filter (is_state_write CACHE_MATCHED_KEY) evs = []
        /\ state w' !! CACHE_MATCHED_KEY = state w !! CACHE_MATCHED_KEY).
Proof.
  intros Hpm Hh Hne key w'. unfold w'.
  rewrite (restore_run env pm o performRestore w h Hpm Hh Hne).
  fold key. unfold platform.
  pose proof matched_slot_is_not_primary_slot as Hslots.
  destruct performRestore.
  - set (restoreKeys := [CACHE_KEY_PREFIX ++ "-" ++ Js.template (RUNNER_OS env)
                         ++ "-" ++ id pm]).
    destruct (restoreCache env (path pm) key restoreKeys) as [m | e];
      [destruct (Js.truthy_opt m) |];
      simpl; eexists; (split; [unfold new_events; simpl;
                                rewrite <- ?app_assoc; reflexivity |]);
      (split; [simpl; rewrite ?(lookup_insert_ne _ _ _ _ Hslots);
               apply lookup_insert_eq |]);
      (split; [reflexivity |]); (split; [reflexivity | discriminate]).
  - simpl. eexists. split; [unfold new_events; simpl; reflexivity |].
    split; [apply lookup_insert_eq |]. split; [reflexivity |].
    split; [discriminate |]. intros _. split; [reflexivity |].
    split; [reflexivity |]. apply lookup_insert_ne. congruence.
Qed.

Lemma restore_persists_primary_key_witness :
  In Sample.maven (supportedPackageManager Sample.linux)
  /\ hashFiles Sample.linux (Js.join Js.NL (effective_pattern Sample.maven None))
     = Some "0a1b2c"
  /\ "0a1b2c" <> EmptyString
  /\ exists evs,
       new_events Sample.fresh (snd (restore Sample.linux "maven" None false Sample.fresh)) evs
       /\ state (snd (restore Sample.linux "maven" None false Sample.fresh))
            !! STATE_CACHE_PRIMARY_KEY = Some "setup-java-Linux-maven-0a1b2c"
       /\ List.filter (is_state_write STATE_CACHE_PRIMARY_KEY) evs
          = [EvSaveState STATE_CACHE_PRIMARY_KEY "setup-java-Linux-maven-0a1b2c"]
       /\ (false = true ->
           List.filter is_store_call evs
           = [EvRestoreCache (path Sample.maven) "setup-java-Linux-maven-0a1b2c"
                ["setup-java-Linux-maven"]])
       /\ (false = false ->
           List.filter is_store_call evs = []
           /\ List.filter (is_state_write CACHE_MATCHED_KEY) evs = []
           /\ state (snd (restore Sample.linux "maven" None false Sample.fresh))
                !! CACHE_MATCHED_KEY = state Sample.fresh !! CACHE_MATCHED_KEY).
Proof.
  assert (Hpm : In Sample.maven (supportedPackageManager Sample.linux))
    by (left; reflexivity).
  assert (Hne : "0a1b2c" <> EmptyString) by discriminate.
  split; [exact Hpm |]. split; [reflexivity |]. split; [exact Hne |].
  exact (restore_persists_primary_key Sample.linux Sample.maven None false
           Sample.fresh "0a1b2c" Hpm eq_refl Hne).
Defined.

(** C3.  In [restore] with [performRestore], once the store has answered:
    a matched key (a non-empty string) is persisted in the matched-key
    slot, the output "cache-hit" is set to whether it equals the primary
    key, and the trace ends with "Cache restored from key: <matched key>";
    no match ([undefined] or the empty string) sets "cache-hit" to false,
    writes nothing to the matched-key slot, and the trace ends with
    "<id> cache is not found for key <primary key>". *)
Theorem restore_records_outcome (env : Env) (pm : PackageManager)
    (o : option string) (w : World) (h : string) (reported : option string) :
  In pm (supportedPackageManager env) ->
  hashFiles env (Js.join Js.NL (effective_pattern pm o)) = Some h ->
  h <> EmptyString ->
  let patterns := Js.join Js.NL (effective_pattern pm o) in
  let key := CACHE_KEY_PREFIX ++ "-" ++ platform env ++ "-" ++ id pm ++ "-" ++ h in
  let restoreKeys := [CACHE_KEY_PREFIX ++ "-" ++ platform env ++ "-" ++ id pm] in
  restoreCache env (path pm) key restoreKeys = Returns reported ->
  let outcome := restore env (id pm) o true w in
  fst outcome = Returns tt
  /\ (forall matchedKey,
        reported = Some matchedKey -> matchedKey <> EmptyString ->
        state (snd outcome) !! CACHE_MATCHED_KEY = Some matchedKey
        /\ outputs (snd outcome) !! "cache-hit" = Some (String.eqb matchedKey key)
        /\ new_events w (snd outcome)
             [EvHashFiles patterns;
              EvDebug ("primary key is " ++ key);
              EvSaveState STATE_CACHE_PRIMARY_KEY key;
              EvRestoreCache (path pm) key restoreKeys;
              EvSaveState CACHE_MATCHED_KEY matchedKey;
              EvSetOutput "cache-hit" (String.eqb matchedKey key);
              EvInfo ("Cache restored from key: " ++ matchedKey)])
  /\ (no_match reported ->
        state (snd outcome) !! CACHE_MATCHED_KEY = state w !! CACHE_MATCHED_KEY
        /\ outputs (snd outcome) !! "cache-hit" = Some false
        /\ new_events w (snd outcome)
             [EvHashFiles patterns;
              EvDebug ("primary key is " ++ key);
              EvSaveState STATE_CACHE_PRIMARY_KEY key;
              EvRestoreCache (path pm) key restoreKeys;
              EvSetOutput "cache-hit" false;
              EvInfo (id pm ++ " cache is not found for key " ++ key)]).
Proof.
  intros Hpm Hh Hne patterns key restoreKeys Hstore outcome. unfold outcome.
  rewrite (restore_run env pm o true w h Hpm Hh Hne).
  fold key. fold restoreKeys. rewrite Hstore.
  pose proof matched_slot_is_not_primary_slot as Hslots.
  split; [now destruct (Js.truthy_opt reported) |]. split.
  - intros matchedKey -> Hm. apply truthy_spec in Hm.
    simpl. rewrite Hm. simpl. split; [apply lookup_insert_eq |].
    split; [apply lookup_insert_eq |].
    unfold new_events. simpl. now rewrite <- app_assoc.
  - intros Hno. apply truthy_opt_false in Hno. rewrite Hno. simpl.
    split; [apply lookup_insert_ne; congruence |].
    split; [apply lookup_insert_eq |].
    unfold new_events. simpl. now rewrite <- app_assoc.
Qed.

Lemma restore_records_outcome_witness :
  In Sample.maven (supportedPackageManager Sample.linux_hit)
  /\ hashFiles Sample.linux_hit
       (Js.join Js.NL (effective_pattern Sample.maven None)) = Some "0a1b2c"
  /\ "0a1b2c" <> EmptyString
  /\ restoreCache Sample.linux_hit (path Sample.maven)
       "setup-java-Linux-maven-0a1b2c" ["setup-java-Linux-maven"]
     = Returns (Some "setup-java-Linux-maven-0a1b2c")
  /\ fst (restore Sample.linux_hit "maven" None true Sample.fresh) = Returns tt.
Proof.
  assert (Hpm : In Sample.maven (supportedPackageManager Sample.linux_hit))
    by (left; reflexivity).
  assert (Hne : "0a1b2c" <> EmptyString) by discriminate.
  split; [exact Hpm |]. split; [reflexivity |]. split; [exact Hne |].
  split; [reflexivity |].
  exact (proj1 (restore_records_outcome Sample.linux_hit Sample.maven None
                  Sample.fresh "0a1b2c" (Some "setup-java-Linux-maven-0a1b2c")
                  Hpm eq_refl Hne eq_refl)).
Defined.

(** ** Save *)

Lemma or_empty_id (s : string) : Js.or_empty s = s.
Proof. now destruct s. Qed.

Lemma isProbablyGradleDaemonProblem_spec (env : Env) (pm : PackageManager)
    (e : JsError) :
  isProbablyGradleDaemonProblem env pm e = true
  <-> id pm = "gradle" /\ RUNNER_OS env = Some "Windows"
      /\ Js.startsWith (message e) "Tar failed with error: " = true.
Proof.
  unfold isProbablyGradleDaemonProblem. rewrite or_empty_id.
  destruct (String.eqb_spec (id pm) "gradle") as [Hid | Hid]; simpl.
  - destruct (RUNNER_OS env) as [os |]; simpl.
    + destruct (String.eqb_spec os "Windows") as [-> | Hos]; simpl.
      * tauto.
      * split; [discriminate |]. intros (_ & [= Hw] & _). contradiction.
    + split; [discriminate |]. intros (_ & [=] & _).
  - split; [discriminate | tauto].
Qed.

(** The [try]/[catch] statement, by the answer of the store. *)
Lemma save_attempt_run (env : Env) (pm : PackageManager) (key : string)
    (w : World) :
  save_attempt env pm key w
  = match saveCache env (path pm) key with
    | Returns _ =>
        (Returns tt,
         with_trace w [EvSaveCache (path pm) key;
                       EvInfo ("Cache saved with the key: " ++ key)])
    | Throws e =>
        if String.eqb (name e) ReserveCacheError_name then
          (Returns tt, with_trace w [EvSaveCache (path pm) key; EvInfo (message e)])
        else if isProbablyGradleDaemonProblem env pm e then
          (Throws e, with_trace w [EvSaveCache (path pm) key;
                                   EvWarning gradle_daemon_warning])
        else (Throws e, with_trace w [EvSaveCache (path pm) key])
    end.
Proof.
  unfold save_attempt, cache_saveCache.
  destruct (saveCache env (path pm) key) as [n | e].
  - step_world.
  - unfold try_catch, bind, call.
    destruct (String.eqb (name e) ReserveCacheError_name); [step_world |].
    destruct (isProbablyGradleDaemonProblem env pm e); step_world.
Qed.

(** [save] up to the [try] statement. *)
Lemma save_run (env : Env) (pm : PackageManager) (forceUpdate : bool) (w : World) :
  In pm (supportedPackageManager env) ->
  let primaryKey := slot w STATE_CACHE_PRIMARY_KEY in
  let matchedKey := slot w CACHE_MATCHED_KEY in
  save env (id pm) forceUpdate w
  = if negb forceUpdate then
      if negb (Js.truthy primaryKey) then
        (Returns tt, with_trace w [EvWarning "Error retrieving key from state."])
      else if String.eqb matchedKey primaryKey then
        (Returns tt,
         with_trace w [EvInfo ("Cache hit occurred on the primary key "
                               ++ primaryKey ++ ", not saving cache.")])
      else save_attempt env pm primaryKey w
    else save_attempt env pm primaryKey w.
Proof.
  intros Hpm primaryKey matchedKey. unfold save, bind.
  rewrite (findPackageManager_registered env pm w Hpm).
  unfold core.getState. fold (slot w CACHE_MATCHED_KEY).
  fold (slot w STATE_CACHE_PRIMARY_KEY). fold primaryKey. fold matchedKey.
  destruct forceUpdate; simpl; [reflexivity |].
  destruct (Js.truthy primaryKey); simpl; [| reflexivity].
  destruct (String.eqb matchedKey primaryKey); reflexivity.
Qed.

(** An attempt calls the store's save first, and calls the store once. *)
Lemma save_attempt_calls_store (env : Env) (pm : PackageManager) (key : string)
    (w : World) :
  exists rest,
    snd (save_attempt env pm key w)
    = with_trace w (EvSaveCache (path pm) key :: rest)
    /\ List.filter is_store_call rest = []
    /\ ~ In (EvWarning "Error retrieving key from state.") rest.
Proof.
  rewrite save_attempt_run.
  destruct (saveCache env (path pm) key) as [n | e].
  - eexists. split; [reflexivity |]. split; [reflexivity |].
    intros [H | []]; discriminate H.
  - destruct (String.eqb (name e) ReserveCacheError_name).
    + eexists. split; [reflexivity |]. split; [reflexivity |].
      intros [H | []]; discriminate H.
    + destruct (isProbablyGradleDaemonProblem env pm e).
      * eexists. split; [reflexivity |]. split; [reflexivity |].
        intros [H | []]. vm_compute in H. discriminate H.
      * exists []. split; [reflexivity |]. split; [reflexivity |]. intros [].
Qed.

(** C1.  For a package manager of the registry, [save(id, false)] follows
    the decision policy: with an empty primary-key slot it warns "Error
    retrieving key from state." and returns, the store not called; else
    with a matched key equal to the primary key it logs the cache hit and
    returns, the store not called; otherwise its first action is the call
    of the store's save with the cache paths of the descriptor and the
    primary key.  [save(id, true)] makes that call whatever the slots hold. *)
Theorem save_decision_policy (env : Env) (pm : PackageManager) (w : World) :
  In pm (supportedPackageManager env) ->
  let primaryKey := slot w STATE_CACHE_PRIMARY_KEY in
  let matchedKey := slot w CACHE_MATCHED_KEY in
  (primaryKey = EmptyString ->
   save env (id pm) false w
   = (Returns tt, with_trace w [EvWarning "Error retrieving key from state."]))
  /\ (primaryKey <> EmptyString -> matchedKey = primaryKey ->
      save env (id pm) false w
      = (Returns tt,
         with_trace w [EvInfo ("Cache hit occurred on the primary key "
                               ++ primaryKey ++ ", not saving cache.")]))
  /\ (primaryKey <> EmptyString -> matchedKey <> primaryKey ->
      exists rest,
        snd (save env (id pm) false w)
        = with_trace w (EvSaveCache (path pm) primaryKey :: rest)
        /\ List.filter is_store_call rest = [])
  /\ (exists rest,
        snd (save env (id pm) true w)
        = with_trace w (EvSaveCache (path pm) primaryKey :: rest)
        /\ List.filter is_store_call rest = []).
Proof.
  intros Hpm primaryKey matchedKey.
  pose proof (save_run env pm false w Hpm) as Hfalse.
  pose proof (save_run env pm true w Hpm) as Htrue.
  simpl in Hfalse, Htrue. fold primaryKey in Hfalse, Htrue.
  fold matchedKey in Hfalse.
  destruct (save_attempt_calls_store env pm primaryKey w)
    as (rest & Hrest & Hcalls & _).
  repeat split.
  - intros Hempty. apply truthy_false in Hempty.
    rewrite Hfalse, Hempty. reflexivity.
  - intros Hkey Hhit. apply truthy_spec in Hkey.
    apply String.eqb_eq in Hhit. rewrite Hfalse, Hkey, Hhit. reflexivity.
  - intros Hkey Hmiss. apply truthy_spec in Hkey.
    apply String.eqb_neq in Hmiss. rewrite Hfalse, Hkey, Hmiss. simpl. eauto.
  - rewrite Htrue. eauto.
Qed.

Lemma save_decision_policy_witness :
  In Sample.maven (supportedPackageManager Sample.linux)
  /\ save Sample.linux "maven" false Sample.fresh
     = (Returns tt,
        with_trace Sample.fresh [EvWarning "Error retrieving key from state."]).
Proof.
  assert (Hpm : In Sample.maven (supportedPackageManager Sample.linux))
    by (left; reflexivity).
  split; [exact Hpm |].
  exact (proj1 (save_decision_policy Sample.linux Sample.maven Sample.fresh Hpm)
           eq_refl).
Defined.

(** C7.  When [save] reaches the store and the store's save throws: an
    error named ReserveCacheError is swallowed, its message logged with
    [core.info], and [save] returns; any other error is thrown again as it
    is, after the warning about the Gradle daemon when the package manager
    is gradle, RUNNER_OS is Windows and the message starts with "Tar failed
    with error: ", and with no warning otherwise. *)
Theorem save_failure_classification (env : Env) (pm : PackageManager)
    (forceUpdate : bool) (w : World) (e : JsError) :
  In pm (supportedPackageManager env) ->
  let primaryKey := slot w STATE_CACHE_PRIMARY_KEY in
  let matchedKey := slot w CACHE_MATCHED_KEY in
  forceUpdate = true \/ (primaryKey <> EmptyString /\ matchedKey <> primaryKey) ->
  saveCache env (path pm) primaryKey = Throws e ->
  (name e = ReserveCacheError_name ->
   save env (id pm) forceUpdate w
   = (Returns tt,
      with_trace w [EvSaveCache (path pm) primaryKey; EvInfo (message e)]))
  /\ (name e <> ReserveCacheError_name ->
      id pm = "gradle" -> RUNNER_OS env = Some "Windows" ->
      Js.startsWith (message e) "Tar failed with error: " = true ->
      save env (id pm) forceUpdate w
      = (Throws e,
         with_trace w [EvSaveCache (path pm) primaryKey;
                       EvWarning gradle_daemon_warning]))
  /\ (name e <> ReserveCacheError_name ->
      ~ (id pm = "gradle" /\ RUNNER_OS env = Some "Windows"
         /\ Js.startsWith (message e) "Tar failed with error: " = true) ->
      save env (id pm) forceUpdate w
      = (Throws e, with_trace w [EvSaveCache (path pm) primaryKey])).
Proof.
  intros Hpm primaryKey matchedKey Hreach Hstore.
  assert (Hsave : save env (id pm) forceUpdate w
                  = save_attempt env pm primaryKey w).
  { rewrite (save_run env pm forceUpdate w Hpm).
    fold primaryKey. fold matchedKey.
    destruct Hreach as [-> | [Hkey Hmiss]]; [reflexivity |].
    apply truthy_spec in Hkey. apply String.eqb_neq in Hmiss.
    rewrite Hkey, Hmiss. now destruct forceUpdate. }
  rewrite Hsave, save_attempt_run, Hstore.
  repeat split.
  - intros Hname. apply String.eqb_eq in Hname. now rewrite Hname.
  - intros Hname Hid Hos Htar. apply String.eqb_neq in Hname. rewrite Hname.
    assert (Hd : isProbablyGradleDaemonProblem env pm e = true)
      by now apply isProbablyGradleDaemonProblem_spec.
    now rewrite Hd.
  - intros Hname Hnot. apply String.eqb_neq in Hname. rewrite Hname.
    destruct (isProbablyGradleDaemonProblem env pm e) eqn:Hd; [| reflexivity].
    apply isProbablyGradleDaemonProblem_spec in Hd. contradiction.
Qed.

Lemma save_failure_classification_witness :
  In Sample.gradle_windows (supportedPackageManager Sample.windows_tar)
  /\ (true = true
      \/ (slot Sample.fresh STATE_CACHE_PRIMARY_KEY <> EmptyString
          /\ slot Sample.fresh CACHE_MATCHED_KEY
             <> slot Sample.fresh STATE_CACHE_PRIMARY_KEY))
  /\ saveCache Sample.windows_tar (path Sample.gradle_windows)
       (slot Sample.fresh STATE_CACHE_PRIMARY_KEY)
     = Throws {| name := "Error"; message := "Tar failed with error: exit code 2" |}
  /\ save Sample.windows_tar "gradle" true Sample.fresh
     = (Throws {| name := "Error"; message := "Tar failed with error: exit code 2" |},
        with_trace Sample.fresh
          [EvSaveCache (path Sample.gradle_windows) EmptyString;
           EvWarning gradle_daemon_warning]).
Proof.
  assert (Hpm : In Sample.gradle_windows (supportedPackageManager Sample.windows_tar))
    by (right; left; reflexivity).
  assert (Hname : "Error" <> ReserveCacheError_name) by discriminate.
  split; [exact Hpm |]. split; [left; reflexivity |]. split; [reflexivity |].
  exact (proj1 (proj2
    (save_failure_classification Sample.windows_tar Sample.gradle_windows true
       Sample.fresh
       {| name := "Error"; message := "Tar failed with error: exit code 2" |}
       Hpm (or_introl eq_refl) eq_refl))
    Hname eq_refl eq_refl eq_refl).
Defined.

(** C10.  [save(id, true)] with an empty primary-key slot still calls the
    store's save, with the empty string as the key, and does not warn that
    the key is missing. *)
Theorem forced_save_without_primary_key (env : Env) (pm : PackageManager)
    (w : World) :
  In pm (supportedPackageManager env) ->
  slot w STATE_CACHE_PRIMARY_KEY = EmptyString ->
  exists rest,
    snd (save env (id pm) true w)
    = with_trace w (EvSaveCache (path pm) EmptyString :: rest)
    /\ List.filter is_store_call rest = []
    /\ ~ In (EvWarning "Error retrieving key from state.") rest.
Proof.
  intros Hpm Hempty.
  pose proof (save_run env pm true w Hpm) as Hrun. simpl in Hrun.
  rewrite Hrun, Hempty. apply save_attempt_calls_store.
Qed.

Lemma forced_save_without_primary_key_witness :
  In Sample.maven (supportedPackageManager Sample.linux)
  /\ slot Sample.fresh STATE_CACHE_PRIMARY_KEY = EmptyString
  /\ exists rest,
       snd (save Sample.linux "maven" true Sample.fresh)
       = with_trace Sample.fresh
           (EvSaveCache (path Sample.maven) EmptyString :: rest)
       /\ List.filter is_store_call rest = []
       /\ ~ In (EvWarning "Error retrieving key from state.") rest.
Proof.
  assert (Hpm : In Sample.maven (supportedPackageManager Sample.linux))
    by (left; reflexivity).
  split; [exact Hpm |]. split; [reflexivity |].
  exact (forced_save_without_primary_key Sample.linux Sample.maven Sample.fresh
           Hpm eq_refl).
Defined.

(** * Further properties of the module *)

(** ** The registry and [findPackageManager] *)

Lemma find_some_supported (env : Env) (id0 : string) (pm : PackageManager) :
  find (fun packageManager => String.eqb (id packageManager) id0)
       (supportedPackageManager env) = Some pm ->
  In id0 supported_ids.
Proof.
  intros Hf. destruct (in_dec String.string_dec id0 supported_ids) as [Hin | Hno];
    [exact Hin |].
  rewrite (find_unsupported env id0 Hno) in Hf. discriminate.
Qed.

(** X1.  [findPackageManager] returns a descriptor exactly for maven,
    gradle and sbt; the descriptor is the entry of the registry with the
    requested identity, and the call leaves the world as it is whether it
    returns or throws. *)
Theorem findPackageManager_spec (env : Env) (id0 : string) (w : World) :
  (In id0 supported_ids <->
   exists pm, fst (findPackageManager env id0 w) = Returns pm)
  /\ (forall pm, fst (findPackageManager env id0 w) = Returns pm ->
        In pm (supportedPackageManager env) /\ id pm = id0)
  /\ (forall e, fst (findPackageManager env id0 w) = Throws e ->
        e = unknown_package_manager_error id0)
  /\ snd (findPackageManager env id0 w) = w.
Proof.
  unfold findPackageManager.
  destruct (find _ (supportedPackageManager env)) as [pm |] eqn:Hf; simpl.
  - pose proof (find_some_supported env id0 pm Hf) as Hin.
    destruct (find_supported env id0 Hin) as (pm' & Hf' & Hreg & Hid).
    rewrite Hf in Hf'. injection Hf' as <-.
    split; [| split; [| split]].
    + split; eauto.
    + intros pm' [= <-]. auto.
    + intros e [=].
    + reflexivity.
  - split; [| split; [| split]].
    + split.
      * intros Hin. destruct (find_supported env id0 Hin) as (pm & Hf' & _).
        congruence.
      * intros (pm & [=]).
    + intros pm [=].
    + intros e [= <-]. reflexivity.
    + reflexivity.
Qed.

(** ** White space around the override *)

Lemma trimStart_whitespace (a s : string) :
  all_whitespace a = true -> Js.trimStart (a ++ s) = Js.trimStart s.
Proof.
  induction a as [| c a IH]; intros Ha; [reflexivity |].
  simpl in Ha. apply andb_prop in Ha as [Hc Ha].
  rewrite append_cons. simpl. rewrite Hc. auto.
Qed.

Lemma trimEnd_all_whitespace (b : string) :
  all_whitespace b = true -> Js.trimEnd b = EmptyString.
Proof.
  induction b as [| c b IH]; intros Hb; [reflexivity |].
  simpl in Hb. apply andb_prop in Hb as [Hc Hb].
  simpl. rewrite (IH Hb), Hc. reflexivity.
Qed.

Lemma trimEnd_whitespace (s b : string) :
  all_whitespace b = true -> Js.trimEnd (s ++ b) = Js.trimEnd s.
Proof.
  intros Hb. induction s as [| c s IH].
  - rewrite append_empty_l. now apply trimEnd_all_whitespace.
  - rewrite append_cons. simpl. now rewrite IH.
Qed.

Lemma trimStart_all_whitespace (a : string) :
  all_whitespace a = true -> Js.trimStart a = EmptyString.
Proof.
  intros Ha. rewrite <- (append_empty_r a).
  now rewrite trimStart_whitespace.
Qed.

Lemma trim_all_whitespace (s : string) :
  all_whitespace s = true -> Js.trim s = EmptyString.
Proof.
  intros Hs. unfold Js.trim. now rewrite trimStart_all_whitespace.
Qed.

Lemma trim_trailing_whitespace (s b : string) :
  all_whitespace b = true -> Js.trim (s ++ b) = Js.trim s.
Proof.
  intros Hb. unfold Js.trim. induction s as [| c s IH].
  - rewrite append_empty_l. now rewrite trimStart_all_whitespace.
  - rewrite append_cons. simpl. destruct (Js.isWhiteSpace c); [exact IH |].
    rewrite <- append_cons. now apply trimEnd_whitespace.
Qed.

(** [trim] ignores the white space around a string. *)
Lemma trim_surrounded (a s b : string) :
  all_whitespace a = true -> all_whitespace b = true ->
  Js.trim (a ++ s ++ b) = Js.trim s.
Proof.
  intros Ha Hb. rewrite <- append_assoc.
  rewrite (trim_trailing_whitespace (a ++ s) b Hb).
  unfold Js.trim. now rewrite trimStart_whitespace.
Qed.

Lemma trim_nonempty_source (s : string) :
  Js.trim s <> EmptyString -> s <> EmptyString.
Proof. intros Ht ->. now apply Ht. Qed.

Lemma append_nonempty (a s b : string) :
  s <> EmptyString -> a ++ s ++ b <> EmptyString.
Proof.
  intros Hs. destruct a as [| c a]; [| discriminate].
  rewrite append_empty_l. destruct s as [| c s]; [congruence | discriminate].
Qed.

(** X2.  White space and line terminators around an override do not
    count: an override with a non-empty trimmed text, and the same override
    with white space added before and after it, make [computeCacheKey] do
    the same call to the hashing primitive and give the same outcome. *)
Theorem override_ignores_surrounding_whitespace (env : Env)
    (pm : PackageManager) (a s b : string) (w : World) :
  all_whitespace a = true ->
  all_whitespace b = true ->
  Js.trim s <> EmptyString ->
  computeCacheKey env pm (Some (a ++ s ++ b)) w
  = computeCacheKey env pm (Some s) w.
Proof.
  intros Ha Hb Ht.
  pose proof (trim_nonempty_source s Ht) as Hs.
  pose proof (append_nonempty a s b Hs) as Hasb.
  apply truthy_spec in Hs. apply truthy_spec in Hasb.
  unfold computeCacheKey, effective_pattern.
  now rewrite Hs, Hasb, (trim_surrounded a s b Ha Hb).
Qed.

Lemma override_ignores_surrounding_whitespace_witness :
  all_whitespace "  " = true
  /\ all_whitespace Js.NL = true
  /\ Js.trim "**/pom.xml" <> EmptyString
  /\ computeCacheKey Sample.linux Sample.maven
       (Some ("  " ++ "**/pom.xml" ++ Js.NL)) Sample.fresh
     = computeCacheKey Sample.linux Sample.maven (Some "**/pom.xml") Sample.fresh.
Proof.
  assert (Ht : Js.trim "**/pom.xml" <> EmptyString) by (vm_compute; discriminate).
  split; [reflexivity |]. split; [reflexivity |]. split; [exact Ht |].
  exact (override_ignores_surrounding_whitespace Sample.linux Sample.maven
           "  " "**/pom.xml" Js.NL Sample.fresh eq_refl eq_refl Ht).
Defined.

(** X3.  An override that is not empty but holds only white space is not
    taken as absent: the defaults of the package manager are not used, the
    hashing primitive is called with the empty string, and when that
    matches no file the error names an empty pattern list. *)
Theorem blank_override_hashes_empty_pattern (env : Env) (pm : PackageManager)
    (s : string) (w : World) :
  s <> EmptyString ->
  all_whitespace s = true ->
  effective_pattern pm (Some s) = [EmptyString]
  /\ snd (computeCacheKey env pm (Some s) w) = with_trace w [EvHashFiles EmptyString]
  /\ (empty_hash (hashFiles env EmptyString) ->
      fst (computeCacheKey env pm (Some s) w)
      = Throws (new_Error ("No file in " ++ cwd env ++ " matched to ["
                           ++ "], make sure you have checked out the target repository"))).
Proof.
  intros Hs Hws.
  assert (Heff : effective_pattern pm (Some s) = [EmptyString]).
  { unfold effective_pattern. apply truthy_spec in Hs.
    now rewrite Hs, (trim_all_whitespace s Hws). }
  split; [exact Heff |].
  destruct (hash_cases (hashFiles env EmptyString)) as [He | (h & Hh & Hne)].
  - pose proof (computeCacheKey_no_file env pm (Some s) w) as Hrun.
    cbv zeta in Hrun. rewrite Heff in Hrun. specialize (Hrun He).
    rewrite Hrun. split; [reflexivity |]. intros _. reflexivity.
  - pose proof (computeCacheKey_hashed env pm (Some s) w h) as Hrun.
    cbv zeta in Hrun. rewrite Heff in Hrun. specialize (Hrun Hh Hne).
    rewrite Hrun. split; [reflexivity |].
    intros [Hn | Hn]; rewrite Hh in Hn; [discriminate |].
    injection Hn as ->. now contradiction Hne.
Qed.

Lemma blank_override_hashes_empty_pattern_witness :
  "   " <> EmptyString
  /\ all_whitespace "   " = true
  /\ snd (computeCacheKey Sample.linux Sample.maven (Some "   ") Sample.fresh)
     = with_trace Sample.fresh [EvHashFiles EmptyString].
Proof.
  assert (Hs : "   " <> EmptyString) by discriminate.
  split; [exact Hs |]. split; [reflexivity |].
  exact (proj1 (proj2 (blank_override_hashes_empty_pattern Sample.linux
                         Sample.maven "   " Sample.fresh Hs eq_refl))).
Defined.

(** X4.  The string handed to the hashing primitive loses no pattern: for
    a package manager of the registry and any override, splitting it on
    line feeds gives the effective pattern list back. *)
Theorem hashed_patterns_round_trip (env : Env) (pm : PackageManager)
    (o : option string) :
  In pm (supportedPackageManager env) ->
  Js.split_lf (Js.join Js.NL (effective_pattern pm o)) = effective_pattern pm o.
Proof.
  intros Hpm.
  assert (Hdefault : Js.split_lf (Js.join Js.NL (pattern pm)) = pattern pm).
  { destruct Hpm as [<- | [<- | [<- | []]]]; reflexivity. }
  unfold effective_pattern. destruct o as [s |]; [| exact Hdefault].
  destruct (Js.truthy s); [| exact Hdefault].
  now rewrite join_split_lf.
Qed.

Lemma hashed_patterns_round_trip_witness :
  In Sample.maven (supportedPackageManager Sample.linux)
  /\ Js.split_lf (Js.join Js.NL (effective_pattern Sample.maven
                    (Some ("a/*.gradle" ++ Js.NL ++ "b/*.gradle" ++ Js.NL))))
     = effective_pattern Sample.maven
         (Some ("a/*.gradle" ++ Js.NL ++ "b/*.gradle" ++ Js.NL)).
Proof.
  assert (Hpm : In Sample.maven (supportedPackageManager Sample.linux))
    by (left; reflexivity).
  split; [exact Hpm |].
  exact (hashed_patterns_round_trip Sample.linux Sample.maven
           (Some ("a/*.gradle" ++ Js.NL ++ "b/*.gradle" ++ Js.NL)) Hpm).
Defined.

(** ** The shape of the keys *)

Lemma append_inj_l (a b c : string) : a ++ b = a ++ c -> b = c.
Proof.
  induction a as [| x a IH]; [now rewrite !append_empty_l |].
  rewrite !append_cons. intros [= H]. auto.
Qed.

Lemma prefix_append (a b : string) : String.prefix a (a ++ b) = true.
Proof.
  induction a as [| x a IH]; [now destruct b |].
  rewrite append_cons. simpl. now destruct (ascii_dec x x).
Qed.

Lemma primary_key_unfold (env : Env) (pm : PackageManager) (h : string) :
  primary_key env pm h = restore_key env pm ++ "-" ++ h.
Proof.
  unfold primary_key, restore_key. now rewrite !append_assoc.
Qed.

Lemma primary_key_truthy (env : Env) (pm : PackageManager) (h : string) :
  Js.truthy (primary_key env pm h) = true.
Proof. reflexivity. Qed.

(** X5.  The key changes with the hash: two calls of [computeCacheKey]
    for the same package manager, under the same RUNNER_OS, that return the
    same key got the same answer from the hashing primitive, whatever the
    overrides and the rest of the environments are. *)
Theorem equal_keys_equal_hashes (env1 env2 : Env) (pm : PackageManager)
    (o1 o2 : option string) (w1 w2 : World) (key : string) :
  RUNNER_OS env1 = RUNNER_OS env2 ->
  returned_key (computeCacheKey env1 pm o1 w1) = Some key ->
  returned_key (computeCacheKey env2 pm o2 w2) = Some key ->
  hashFiles env1 (Js.join Js.NL (effective_pattern pm o1))
  = hashFiles env2 (Js.join Js.NL (effective_pattern pm o2)).
Proof.
  intros Hos H1 H2.
  destruct (hash_cases (hashFiles env1 (Js.join Js.NL (effective_pattern pm o1))))
    as [He1 | (h1 & Hh1 & Hne1)].
  { rewrite (computeCacheKey_no_file env1 pm o1 w1 He1) in H1. discriminate. }
  destruct (hash_cases (hashFiles env2 (Js.join Js.NL (effective_pattern pm o2))))
    as [He2 | (h2 & Hh2 & Hne2)].
  { rewrite (computeCacheKey_no_file env2 pm o2 w2 He2) in H2. discriminate. }
  rewrite (computeCacheKey_hashed env1 pm o1 w1 h1 Hh1 Hne1) in H1.
  rewrite (computeCacheKey_hashed env2 pm o2 w2 h2 Hh2 Hne2) in H2.
  unfold returned_key in H1, H2. simpl in H1, H2.
  injection H1 as H1. injection H2 as H2.
  fold (primary_key env1 pm h1) in H1. fold (primary_key env2 pm h2) in H2.
  rewrite primary_key_unfold in H1, H2.
  assert (Hrk : restore_key env1 pm = restore_key env2 pm)
    by (unfold restore_key, platform; now rewrite Hos).
  rewrite Hrk, <- H2 in H1. apply append_inj_l in H1. apply append_inj_l in H1.
  congruence.
Qed.

Lemma equal_keys_equal_hashes_witness :
  RUNNER_OS Sample.linux = RUNNER_OS Sample.linux_hit
  /\ returned_key (computeCacheKey Sample.linux Sample.maven None Sample.fresh)
     = Some "setup-java-Linux-maven-0a1b2c"
  /\ returned_key (computeCacheKey Sample.linux_hit Sample.maven
                     (Some "**/pom.xml") Sample.after_miss)
     = Some "setup-java-Linux-maven-0a1b2c"
  /\ hashFiles Sample.linux (Js.join Js.NL (effective_pattern Sample.maven None))
     = hashFiles Sample.linux_hit
         (Js.join Js.NL (effective_pattern Sample.maven (Some "**/pom.xml"))).
Proof.
  split; [reflexivity |]. split; [reflexivity |]. split; [reflexivity |].
  exact (equal_keys_equal_hashes Sample.linux Sample.linux_hit Sample.maven
           None (Some "**/pom.xml") Sample.fresh Sample.after_miss
           "setup-java-Linux-maven-0a1b2c" eq_refl eq_refl eq_refl).
Defined.

(** ** Restore: failures, frame and repetition *)

Lemma restore_unsupported_run (env : Env) (id0 : string) (o : option string)
    (performRestore : bool) (w : World) :
  ~ In id0 supported_ids ->
  restore env id0 o performRestore w
  = (Throws (unknown_package_manager_error id0), w).
Proof.
  intros Hno. unfold restore, bind.
  now rewrite (findPackageManager_unsupported env id0 w Hno).
Qed.

Lemma restore_no_file_run (env : Env) (pm : PackageManager) (o : option string)
    (performRestore : bool) (w : World) :
  In pm (supportedPackageManager env) ->
  empty_hash (hashFiles env (Js.join Js.NL (effective_pattern pm o))) ->
  restore env (id pm) o performRestore w
  = (Throws (no_file_error env (effective_pattern pm o)),
     with_trace w [EvHashFiles (Js.join Js.NL (effective_pattern pm o))]).
Proof.
  intros Hpm He. unfold restore, bind.
  rewrite (findPackageManager_registered env pm w Hpm).
  now rewrite (computeCacheKey_no_file env pm o w He).
Qed.

(** The three ways a call of [restore] can go. *)
Lemma restore_cases (env : Env) (id0 : string) (o : option string)
    (performRestore : bool) (w : World) :
  (~ In id0 supported_ids)
  \/ (exists pm, In pm (supportedPackageManager env) /\ id pm = id0
        /\ empty_hash (hashFiles env (Js.join Js.NL (effective_pattern pm o))))
  \/ (exists pm h, In pm (supportedPackageManager env) /\ id pm = id0
        /\ hashFiles env (Js.join Js.NL (effective_pattern pm o)) = Some h
        /\ h <> EmptyString).
Proof.
  destruct (in_dec String.string_dec id0 supported_ids) as [Hin | Hno];
    [| now left].
  right. destruct (find_supported env id0 Hin) as (pm & _ & Hpm & Hid).
  destruct (hash_cases (hashFiles env (Js.join Js.NL (effective_pattern pm o))))
    as [He | (h & Hh & Hne)]; [left | right]; eauto 8.
Qed.

(** X6.  When the patterns match no file, [restore] throws the error of
    [computeCacheKey] after the one call to the hashing primitive: nothing
    is persisted, no output is set and the store is not called, with or
    without [performRestore]. *)
Theorem restore_without_matching_file (env : Env) (pm : PackageManager)
    (o : option string) (performRestore : bool) (w : World) :
  In pm (supportedPackageManager env) ->
  empty_hash (hashFiles env (Js.join Js.NL (effective_pattern pm o))) ->
  let outcome := restore env (id pm) o performRestore w in
  fst outcome = Throws (no_file_error env (effective_pattern pm o))
  /\ state (snd outcome) = state w
  /\ outputs (snd outcome) = outputs w
  /\ new_events w (snd outcome)
       [EvHashFiles (Js.join Js.NL (effective_pattern pm o))].
Proof.
  intros Hpm He outcome. unfold outcome.
  rewrite (restore_no_file_run env pm o performRestore w Hpm He).
  repeat split.
Qed.

Lemma restore_without_matching_file_witness :
  In Sample.maven (supportedPackageManager Sample.linux)
  /\ empty_hash (hashFiles Sample.linux
       (Js.join Js.NL (effective_pattern Sample.maven (Some "sub/**/pom.xml"))))
  /\ state (snd (restore Sample.linux "maven" (Some "sub/**/pom.xml") true
                   Sample.fresh))
     = state Sample.fresh.
Proof.
  assert (Hpm : In Sample.maven (supportedPackageManager Sample.linux))
    by (left; reflexivity).
  assert (He : empty_hash (hashFiles Sample.linux
            (Js.join Js.NL (effective_pattern Sample.maven (Some "sub/**/pom.xml")))))
    by (left; reflexivity).
  split; [exact Hpm |]. split; [exact He |].
  exact (proj1 (proj2 (restore_without_matching_file Sample.linux Sample.maven
                         (Some "sub/**/pom.xml") true Sample.fresh Hpm He))).
Defined.

(** X7.  When the store's restore throws, [restore] throws the same error;
    the primary key is persisted all the same, and neither the matched-key
    slot nor any output is written. *)
Theorem restore_store_failure (env : Env) (pm : PackageManager)
    (o : option string) (w : World) (h : string) (e : JsError) :
  In pm (supportedPackageManager env) ->
  hashFiles env (Js.join Js.NL (effective_pattern pm o)) = Some h ->
  h <> EmptyString ->
  restoreCache env (path pm) (primary_key env pm h) [restore_key env pm] = Throws e ->
  let outcome := restore env (id pm) o true w in
  fst outcome = Throws e
  /\ state (snd outcome) = <[ STATE_CACHE_PRIMARY_KEY := primary_key env pm h ]> (state w)
  /\ outputs (snd outcome) = outputs w
  /\ new_events w (snd outcome)
       [EvHashFiles (Js.join Js.NL (effective_pattern pm o));
        EvDebug ("primary key is " ++ primary_key env pm h);
        EvSaveState STATE_CACHE_PRIMARY_KEY (primary_key env pm h);
        EvRestoreCache (path pm) (primary_key env pm h) [restore_key env pm]].
Proof.
  intros Hpm Hh Hne Hstore outcome. unfold outcome.
  rewrite (restore_run env pm o true w h Hpm Hh Hne).
  fold (primary_key env pm h). fold (restore_key env pm). rewrite Hstore.
  repeat split. unfold new_events. simpl. now rewrite <- app_assoc.
Qed.

Lemma restore_store_failure_witness :
  In Sample.maven (supportedPackageManager Scenario.linux_offline)
  /\ hashFiles Scenario.linux_offline
       (Js.join Js.NL (effective_pattern Sample.maven None)) = Some "0a1b2c"
  /\ "0a1b2c" <> EmptyString
  /\ restoreCache Scenario.linux_offline (path Sample.maven)
       (primary_key Scenario.linux_offline Sample.maven "0a1b2c")
       [restore_key Scenario.linux_offline Sample.maven]
     = Throws {| name := "Error"; message := "Cache service responded with 503" |}
  /\ fst (restore Scenario.linux_offline "maven" None true Sample.fresh)
     = Throws {| name := "Error"; message := "Cache service responded with 503" |}.
Proof.
  assert (Hpm : In Sample.maven (supportedPackageManager Scenario.linux_offline))
    by (left; reflexivity).
  assert (Hne : "0a1b2c" <> EmptyString) by discriminate.
  split; [exact Hpm |]. split; [reflexivity |]. split; [exact Hne |].
  split; [reflexivity |].
  exact (proj1 (restore_store_failure Scenario.linux_offline Sample.maven None
                  Sample.fresh "0a1b2c"
                  {| name := "Error"; message := "Cache service responded with 503" |}
                  Hpm eq_refl Hne eq_refl)).
Defined.

Lemma new_events_nil (w : World) : new_events w w [].
Proof. unfold new_events. now rewrite app_nil_r. Qed.

(** X8.  Whatever its arguments and whatever the collaborators answer,
    [restore] only adds to the trace, never calls the store's save and
    never warns; of the persisted state it can change the primary-key and
    matched-key slots only, and of the outputs "cache-hit" only. *)
Theorem restore_frame (env : Env) (id0 : string) (o : option string)
    (performRestore : bool) (w : World) :
  let w' := snd (restore env id0 o performRestore w) in
  (exists evs, new_events w w' evs /\ forallb restore_action evs = true)
  /\ (forall k, k <> STATE_CACHE_PRIMARY_KEY -> k <> CACHE_MATCHED_KEY ->
        state w' !! k = state w !! k)
  /\ (forall k, k <> "cache-hit" -> outputs w' !! k = outputs w !! k).
Proof.
  intros w'. unfold w'.
  destruct (restore_cases env id0 o performRestore w)
    as [Hno | [(pm & Hpm & <- & He) | (pm & h & Hpm & <- & Hh & Hne)]].
  - rewrite (restore_unsupported_run env id0 o performRestore w Hno). simpl.
    split; [exists []; split; [apply new_events_nil | reflexivity] |].
    split; reflexivity.
  - rewrite (restore_no_file_run env pm o performRestore w Hpm He). simpl.
    split; [eexists; split; [reflexivity | reflexivity] |].
    split; reflexivity.
  - rewrite (restore_run env pm o performRestore w h Hpm Hh Hne).
    destruct performRestore.
    + destruct (restoreCache env (path pm) _ _) as [m | e];
        [destruct (Js.truthy_opt m) |]; simpl;
        (split; [eexists; split;
                 [unfold new_events; simpl; rewrite <- ?app_assoc; reflexivity
                 | reflexivity] |]);
        (split; intros k; intros;
         rewrite ?lookup_insert_ne by congruence; reflexivity).
    + simpl. split; [eexists; split; [reflexivity | reflexivity] |].
      split; intros k; intros; rewrite ?lookup_insert_ne by congruence;
        reflexivity.
Qed.

(** X9.  Running [restore] again with the same arguments, in the same
    environment, gives the same result and leaves the persisted state and
    the outputs as the first run left them. *)
Theorem restore_twice (env : Env) (id0 : string) (o : option string)
    (performRestore : bool) (w : World) :
  let w1 := snd (restore env id0 o performRestore w) in
  fst (restore env id0 o performRestore w1) = fst (restore env id0 o performRestore w)
  /\ state (snd (restore env id0 o performRestore w1)) = state w1
  /\ outputs (snd (restore env id0 o performRestore w1)) = outputs w1.
Proof.
  intros w1.
  destruct (restore_cases env id0 o performRestore w)
    as [Hno | [(pm & Hpm & <- & He) | (pm & h & Hpm & <- & Hh & Hne)]].
  - rewrite (restore_unsupported_run env id0 o performRestore w1 Hno).
    unfold w1. rewrite (restore_unsupported_run env id0 o performRestore w Hno).
    repeat split.
  - rewrite (restore_no_file_run env pm o performRestore w1 Hpm He).
    unfold w1. rewrite (restore_no_file_run env pm o performRestore w Hpm He).
    repeat split.
  - rewrite (restore_run env pm o performRestore w1 h Hpm Hh Hne).
    unfold w1. rewrite (restore_run env pm o performRestore w h Hpm Hh Hne).
    destruct performRestore.
    + destruct (restoreCache env (path pm) _ _) as [m | e];
        [destruct (Js.truthy_opt m) |]; simpl;
        (split; [reflexivity |]);
        (split; apply map_eq; intros k; rewrite ?lookup_insert;
         repeat case_decide; congruence).
    + simpl. split; [reflexivity |]. split; [| reflexivity].
      apply insert_insert_eq.
Qed.

(** X10.  The restore key that [restore] hands to the store is a proper
    prefix of the primary key it hands over with it: the primary key is
    the restore key, a dash and the hash. *)
Theorem restore_key_is_proper_prefix (env : Env) (pm : PackageManager)
    (o : option string) (w : World) (h : string) :
  In pm (supportedPackageManager env) ->
  hashFiles env (Js.join Js.NL (effective_pattern pm o)) = Some h ->
  h <> EmptyString ->
  exists key restoreKey,
    In (EvRestoreCache (path pm) key [restoreKey])
       (trace (snd (restore env (id pm) o true w)))
    /\ key = restoreKey ++ "-" ++ h
    /\ Js.startsWith key restoreKey = true
    /\ key <> restoreKey.
Proof.
  intros Hpm Hh Hne.
  exists (primary_key env pm h), (restore_key env pm).
  split; [| split; [apply primary_key_unfold | split]].
  - rewrite (restore_run env pm o true w h Hpm Hh Hne).
    fold (primary_key env pm h). fold (restore_key env pm).
    destruct (restoreCache env (path pm) _ _) as [m | e];
      [destruct (Js.truthy_opt m) |]; simpl; apply in_or_app; right;
      simpl; auto 6.
  - rewrite primary_key_unfold. apply prefix_append.
  - rewrite primary_key_unfold. intros Heq.
    rewrite <- (append_empty_r (restore_key env pm)) in Heq at 2.
    apply append_inj_l in Heq. discriminate.
Qed.

Lemma restore_key_is_proper_prefix_witness :
  In Sample.maven (supportedPackageManager Sample.linux)
  /\ hashFiles Sample.linux (Js.join Js.NL (effective_pattern Sample.maven None))
     = Some "0a1b2c"
  /\ "0a1b2c" <> EmptyString
  /\ exists key restoreKey,
       In (EvRestoreCache (path Sample.maven) key [restoreKey])
          (trace (snd (restore Sample.linux "maven" None true Sample.fresh)))
       /\ key = restoreKey ++ "-" ++ "0a1b2c"
       /\ Js.startsWith key restoreKey = true
       /\ key <> restoreKey.
Proof.
  assert (Hpm : In Sample.maven (supportedPackageManager Sample.linux))
    by (left; reflexivity).
  assert (Hne : "0a1b2c" <> EmptyString) by discriminate.
  split; [exact Hpm |]. split; [reflexivity |]. split; [exact Hne |].
  exact (restore_key_is_proper_prefix Sample.linux Sample.maven None
           Sample.fresh "0a1b2c" Hpm eq_refl Hne).
Defined.

(** ** Save: frame, success and what it throws *)

Lemma save_unsupported_run (env : Env) (id0 : string) (forceUpdate : bool)
    (w : World) :
  ~ In id0 supported_ids ->
  save env id0 forceUpdate w = (Throws (unknown_package_manager_error id0), w).
Proof.
  intros Hno. unfold save, bind.
  now rewrite (findPackageManager_unsupported env id0 w Hno).
Qed.

(** X11.  Whatever its arguments and whatever the store answers, [save]
    writes neither the persisted state nor the outputs; it only adds to the
    trace, and what it adds are calls of the store's save, at most one,
    info lines and warnings: it never hashes and never restores. *)
Theorem save_frame (env : Env) (id0 : string) (forceUpdate : bool) (w : World) :
  let w' := snd (save env id0 forceUpdate w) in
  state w' = state w
  /\ outputs w' = outputs w
  /\ exists evs,
       new_events w w' evs
       /\ forallb save_action evs = true
       /\ length (List.filter is_store_call evs) <= 1.
Proof.
  intros w'. unfold w'.
  destruct (in_dec String.string_dec id0 supported_ids) as [Hin | Hno].
  - destruct (find_supported env id0 Hin) as (pm & _ & Hpm & <-).
    rewrite (save_run env pm forceUpdate w Hpm).
    assert (Hattempt : forall key,
      state (snd (save_attempt env pm key w)) = state w
      /\ outputs (snd (save_attempt env pm key w)) = outputs w
      /\ exists evs,
           new_events w (snd (save_attempt env pm key w)) evs
           /\ forallb save_action evs = true
           /\ length (List.filter is_store_call evs) <= 1).
    { intros key. rewrite save_attempt_run.
      destruct (saveCache env (path pm) key) as [n | e];
        [| destruct (String.eqb (name e) ReserveCacheError_name);
           [| destruct (isProbablyGradleDaemonProblem env pm e)]];
        (split; [reflexivity |]); (split; [reflexivity |]);
        eexists; (split; [reflexivity |]); (split; [reflexivity |]);
        simpl; lia. }
    destruct forceUpdate; simpl; [apply Hattempt |].
    destruct (Js.truthy (slot w STATE_CACHE_PRIMARY_KEY)); simpl.
    + destruct (String.eqb _ _); [| apply Hattempt].
      split; [reflexivity |]. split; [reflexivity |].
      eexists. split; [reflexivity |]. split; [reflexivity |]. simpl. lia.
    + split; [reflexivity |]. split; [reflexivity |].
      eexists. split; [reflexivity |]. split; [reflexivity |]. simpl. lia.
  - rewrite (save_unsupported_run env id0 forceUpdate w Hno). simpl.
    split; [reflexivity |]. split; [reflexivity |].
    exists []. split; [apply new_events_nil |]. split; [reflexivity |].
    simpl. lia.
Qed.

(** X12.  When [save] reaches the store and the store's save returns,
    whatever cache id it returns (a negative one too), [save] returns and
    its actions are that call and the line "Cache saved with the key:
    <primary key>". *)
Theorem save_success (env : Env) (pm : PackageManager) (forceUpdate : bool)
    (w : World) (cacheId : Z) :
  In pm (supportedPackageManager env) ->
  let primaryKey := slot w STATE_CACHE_PRIMARY_KEY in
  let matchedKey := slot w CACHE_MATCHED_KEY in
  forceUpdate = true \/ (primaryKey <> EmptyString /\ matchedKey <> primaryKey) ->
  saveCache env (path pm) primaryKey = Returns cacheId ->
  save env (id pm) forceUpdate w
  = (Returns tt,
     with_trace w [EvSaveCache (path pm) primaryKey;
                   EvInfo ("Cache saved with the key: " ++ primaryKey)]).
Proof.
  intros Hpm primaryKey matchedKey Hreach Hstore.
  rewrite (save_run env pm forceUpdate w Hpm).
  fold primaryKey. fold matchedKey.
  assert (Hattempt : save_attempt env pm primaryKey w
                     = (Returns tt,
                        with_trace w [EvSaveCache (path pm) primaryKey;
                                      EvInfo ("Cache saved with the key: "
                                              ++ primaryKey)]))
    by now rewrite save_attempt_run, Hstore.
  destruct Hreach as [-> | [Hkey Hmiss]]; [exact Hattempt |].
  apply truthy_spec in Hkey. apply String.eqb_neq in Hmiss.
  rewrite Hkey, Hmiss. now destruct forceUpdate.
Qed.

Lemma save_success_witness :
  In Sample.maven (supportedPackageManager Scenario.linux_fallback)
  /\ (false = true
      \/ (slot Sample.after_miss STATE_CACHE_PRIMARY_KEY <> EmptyString
          /\ slot Sample.after_miss CACHE_MATCHED_KEY
             <> slot Sample.after_miss STATE_CACHE_PRIMARY_KEY))
  /\ saveCache Scenario.linux_fallback (path Sample.maven)
       (slot Sample.after_miss STATE_CACHE_PRIMARY_KEY) = Returns (-1)%Z
  /\ save Scenario.linux_fallback "maven" false Sample.after_miss
     = (Returns tt,
        with_trace Sample.after_miss
          [EvSaveCache (path Sample.maven) "setup-java-Linux-maven-0a1b2c";
           EvInfo "Cache saved with the key: setup-java-Linux-maven-0a1b2c"]).
Proof.
  assert (Hpm : In Sample.maven (supportedPackageManager Scenario.linux_fallback))
    by (left; reflexivity).
  assert (Hreach : false = true
      \/ (slot Sample.after_miss STATE_CACHE_PRIMARY_KEY <> EmptyString
          /\ slot Sample.after_miss CACHE_MATCHED_KEY
             <> slot Sample.after_miss STATE_CACHE_PRIMARY_KEY)).
  { right. split; vm_compute; discriminate. }
  split; [exact Hpm |]. split; [exact Hreach |]. split; [reflexivity |].
  exact (save_success Scenario.linux_fallback Sample.maven false
           Sample.after_miss (-1)%Z Hpm Hreach eq_refl).
Defined.

(** X13.  For a package manager of the registry, an error that [save]
    throws is the very error the store's save threw for the persisted
    primary key, and it is never one named ReserveCacheError. *)
Theorem save_throws_store_errors_only (env : Env) (pm : PackageManager)
    (forceUpdate : bool) (w : World) (e : JsError) :
  In pm (supportedPackageManager env) ->
  fst (save env (id pm) forceUpdate w) = Throws e ->
  saveCache env (path pm) (slot w STATE_CACHE_PRIMARY_KEY) = Throws e
  /\ name e <> ReserveCacheError_name.
Proof.
  intros Hpm Hthrow.
  rewrite (save_run env pm forceUpdate w Hpm) in Hthrow.
  assert (Hattempt :
    fst (save_attempt env pm (slot w STATE_CACHE_PRIMARY_KEY) w) = Throws e ->
    saveCache env (path pm) (slot w STATE_CACHE_PRIMARY_KEY) = Throws e
    /\ name e <> ReserveCacheError_name).
  { rewrite save_attempt_run.
    destruct (saveCache env (path pm) _) as [n | e']; [discriminate |].
    destruct (String.eqb_spec (name e') ReserveCacheError_name) as [Hn | Hn];
      [discriminate |].
    destruct (isProbablyGradleDaemonProblem env pm e'); intros [= <-]; auto. }
  destruct forceUpdate; simpl in Hthrow; [auto |].
  destruct (Js.truthy (slot w STATE_CACHE_PRIMARY_KEY)); simpl in Hthrow;
    [| discriminate].
  destruct (String.eqb _ _); [discriminate | auto].
Qed.

Lemma save_throws_store_errors_only_witness :
  In Sample.maven (supportedPackageManager Scenario.linux_offline)
  /\ fst (save Scenario.linux_offline "maven" true Sample.fresh)
     = Throws {| name := "ValidationError"; message := "Validation failed" |}
  /\ saveCache Scenario.linux_offline (path Sample.maven)
       (slot Sample.fresh STATE_CACHE_PRIMARY_KEY)
     = Throws {| name := "ValidationError"; message := "Validation failed" |}
  /\ "ValidationError" <> ReserveCacheError_name.
Proof.
  assert (Hpm : In Sample.maven (supportedPackageManager Scenario.linux_offline))
    by (left; reflexivity).
  split; [exact Hpm |]. split; [reflexivity |].
  exact (save_throws_store_errors_only Scenario.linux_offline Sample.maven true
           Sample.fresh
           {| name := "ValidationError"; message := "Validation failed" |}
           Hpm eq_refl).
Defined.

(** ** From restore to save *)

(** The two slots after a [restore] that computed a key. *)
Lemma restore_hashed_slots (env : Env) (pm : PackageManager) (o : option string)
    (performRestore : bool) (w : World) (h : string) :
  In pm (supportedPackageManager env) ->
  hashFiles env (Js.join Js.NL (effective_pattern pm o)) = Some h ->
  h <> EmptyString ->
  let w' := snd (restore env (id pm) o performRestore w) in
  slot w' STATE_CACHE_PRIMARY_KEY = primary_key env pm h
  /\ (slot w' CACHE_MATCHED_KEY = slot w CACHE_MATCHED_KEY
      \/ performRestore = true
         /\ restoreCache env (path pm) (primary_key env pm h) [restore_key env pm]
            = Returns (Some (slot w' CACHE_MATCHED_KEY))).
Proof.
  intros Hpm Hh Hne w'. unfold w'.
  rewrite (restore_run env pm o performRestore w h Hpm Hh Hne).
  fold (primary_key env pm h). fold (restore_key env pm).
  pose proof matched_slot_is_not_primary_slot as Hslots.
  destruct performRestore.
  - destruct (restoreCache env (path pm) _ _) as [m | e] eqn:Hstore.
    + destruct m as [[| c m] |]; unfold slot; simpl.
      * rewrite lookup_insert_eq, lookup_insert_ne by congruence. auto.
      * rewrite lookup_insert_ne, !lookup_insert_eq by congruence. auto.
      * rewrite lookup_insert_eq, lookup_insert_ne by congruence. auto.
    + unfold slot; simpl.
      rewrite lookup_insert_eq, lookup_insert_ne by congruence. auto.
  - unfold slot; simpl.
    rewrite lookup_insert_eq, lookup_insert_ne by congruence. auto.
Qed.

(** X14.  After a [restore] for which the store reported the primary key
    itself, [save(id, false)], in whatever environment the post action
    runs, does not call the store: it logs the cache hit and returns. *)
Theorem save_after_exact_hit (env1 env2 : Env) (pm pm2 : PackageManager)
    (o : option string) (w : World) (h : string) :
  In pm (supportedPackageManager env1) ->
  hashFiles env1 (Js.join Js.NL (effective_pattern pm o)) = Some h ->
  h <> EmptyString ->
  restoreCache env1 (path pm) (primary_key env1 pm h) [restore_key env1 pm]
  = Returns (Some (primary_key env1 pm h)) ->
  In pm2 (supportedPackageManager env2) ->
  id pm2 = id pm ->
  let w' := snd (restore env1 (id pm) o true w) in
  save env2 (id pm) false w'
  = (Returns tt,
     with_trace w' [EvInfo ("Cache hit occurred on the primary key "
                            ++ primary_key env1 pm h ++ ", not saving cache.")]).
Proof.
  intros Hpm Hh Hne Hstore Hpm2 Hid w'.
  destruct (restore_hashed_slots env1 pm o true w h Hpm Hh Hne) as [Hp Hm].
  fold w' in Hp, Hm.
  assert (Hmatched : slot w' CACHE_MATCHED_KEY = primary_key env1 pm h).
  { unfold w'. rewrite (restore_run env1 pm o true w h Hpm Hh Hne).
    fold (primary_key env1 pm h). fold (restore_key env1 pm). rewrite Hstore.
    unfold slot. simpl. now rewrite lookup_insert_eq. }
  rewrite <- Hid. rewrite (save_run env2 pm2 false w' Hpm2).
  rewrite Hp, Hmatched, String.eqb_refl. reflexivity.
Qed.

Lemma save_after_exact_hit_witness :
  In Sample.maven (supportedPackageManager Sample.linux_hit)
  /\ hashFiles Sample.linux_hit
       (Js.join Js.NL (effective_pattern Sample.maven None)) = Some "0a1b2c"
  /\ "0a1b2c" <> EmptyString
  /\ restoreCache Sample.linux_hit (path Sample.maven)
       (primary_key Sample.linux_hit Sample.maven "0a1b2c")
       [restore_key Sample.linux_hit Sample.maven]
     = Returns (Some (primary_key Sample.linux_hit Sample.maven "0a1b2c"))
  /\ In Sample.maven (supportedPackageManager Scenario.linux_post)
  /\ id Sample.maven = id Sample.maven
  /\ fst (save Scenario.linux_post "maven" false
            (snd (restore Sample.linux_hit "maven" None true Sample.fresh)))
     = Returns tt.
Proof.
  assert (Hpm : In Sample.maven (supportedPackageManager Sample.linux_hit))
    by (left; reflexivity).
  assert (Hpm2 : In Sample.maven (supportedPackageManager Scenario.linux_post))
    by (left; reflexivity).
  assert (Hne : "0a1b2c" <> EmptyString) by discriminate.
  split; [exact Hpm |]. split; [reflexivity |]. split; [exact Hne |].
  split; [reflexivity |]. split; [exact Hpm2 |]. split; [reflexivity |].
  exact (f_equal fst
    (save_after_exact_hit Sample.linux_hit Scenario.linux_post Sample.maven
       Sample.maven None Sample.fresh "0a1b2c" Hpm eq_refl Hne eq_refl Hpm2
       eq_refl)).
Defined.

(** X15.  After a [restore] that computed a key, in a job whose
    matched-key slot did not hold that key before, and unless the store
    reported the primary key itself, [save(id, false)] calls the store's
    save as its first action, once, with the paths of the post action's
    descriptor and the key that [restore] persisted: not a key computed
    anew, even if RUNNER_OS or the files changed meanwhile.  This holds
    when [restore] was run without [performRestore], whatever the store
    holds, when the store reported nothing or another (older) key, and when
    its restore threw. *)
Theorem save_after_restore_uploads (env1 env2 : Env) (pm pm2 : PackageManager)
    (o : option string) (performRestore : bool) (w : World) (h : string) :
  In pm (supportedPackageManager env1) ->
  hashFiles env1 (Js.join Js.NL (effective_pattern pm o)) = Some h ->
  h <> EmptyString ->
  slot w CACHE_MATCHED_KEY <> primary_key env1 pm h ->
  (performRestore = true ->
   restoreCache env1 (path pm) (primary_key env1 pm h) [restore_key env1 pm]
   <> Returns (Some (primary_key env1 pm h))) ->
  In pm2 (supportedPackageManager env2) ->
  id pm2 = id pm ->
  let w' := snd (restore env1 (id pm) o performRestore w) in
  exists rest,
    snd (save env2 (id pm) false w')
    = with_trace w' (EvSaveCache (path pm2) (primary_key env1 pm h) :: rest)
    /\ List.filter is_store_call rest = [].
Proof.
  intros Hpm Hh Hne Hbefore Hstore Hpm2 Hid w'.
  destruct (restore_hashed_slots env1 pm o performRestore w h Hpm Hh Hne)
    as [Hp Hm].
  fold w' in Hp, Hm.
  assert (Hmiss : slot w' CACHE_MATCHED_KEY <> primary_key env1 pm h).
  { destruct Hm as [-> | [Hflag Hrep]]; [exact Hbefore |].
    intros Heq. rewrite Heq in Hrep. now apply (Hstore Hflag). }
  rewrite <- Hid. rewrite (save_run env2 pm2 false w' Hpm2).
  rewrite Hp. apply String.eqb_neq in Hmiss.
  rewrite Hmiss, primary_key_truthy. simpl.
  destruct (save_attempt_calls_store env2 pm2 (primary_key env1 pm h) w')
    as (rest & Hrest & Hcalls & _).
  eauto.
Qed.

Lemma save_after_restore_uploads_witness :
  In Sample.maven (supportedPackageManager Scenario.linux_fallback)
  /\ hashFiles Scenario.linux_fallback
       (Js.join Js.NL (effective_pattern Sample.maven None)) = Some "0a1b2c"
  /\ "0a1b2c" <> EmptyString
  /\ slot Sample.fresh CACHE_MATCHED_KEY
     <> primary_key Scenario.linux_fallback Sample.maven "0a1b2c"
  /\ (true = true ->
      restoreCache Scenario.linux_fallback (path Sample.maven)
        (primary_key Scenario.linux_fallback Sample.maven "0a1b2c")
        [restore_key Scenario.linux_fallback Sample.maven]
      <> Returns (Some (primary_key Scenario.linux_fallback Sample.maven "0a1b2c")))
  /\ In Sample.maven (supportedPackageManager Scenario.linux_post)
  /\ id Sample.maven = id Sample.maven
  /\ exists rest,
       snd (save Scenario.linux_post "maven" false
              (snd (restore Scenario.linux_fallback "maven" None true Sample.fresh)))
       = with_trace
           (snd (restore Scenario.linux_fallback "maven" None true Sample.fresh))
           (EvSaveCache (path Sample.maven) "setup-java-Linux-maven-0a1b2c" :: rest)
       /\ List.filter is_store_call rest = [].
Proof.
  assert (Hpm : In Sample.maven (supportedPackageManager Scenario.linux_fallback))
    by (left; reflexivity).
  assert (Hpm2 : In Sample.maven (supportedPackageManager Scenario.linux_post))
    by (left; reflexivity).
  assert (Hne : "0a1b2c" <> EmptyString) by discriminate.
  assert (Hbefore : slot Sample.fresh CACHE_MATCHED_KEY
            <> primary_key Scenario.linux_fallback Sample.maven "0a1b2c")
    by (vm_compute; discriminate).
  assert (Hstore : true = true ->
            restoreCache Scenario.linux_fallback (path Sample.maven)
              (primary_key Scenario.linux_fallback Sample.maven "0a1b2c")
              [restore_key Scenario.linux_fallback Sample.maven]
            <> Returns (Some (primary_key Scenario.linux_fallback Sample.maven "0a1b2c")))
    by (intros _; vm_compute; discriminate).
  split; [exact Hpm |]. split; [reflexivity |]. split; [exact Hne |].
  split; [exact Hbefore |]. split; [exact Hstore |]. split; [exact Hpm2 |].
  split; [reflexivity |].
  exact (save_after_restore_uploads Scenario.linux_fallback Scenario.linux_post
           Sample.maven Sample.maven None true Sample.fresh "0a1b2c"
           Hpm eq_refl Hne Hbefore Hstore Hpm2 eq_refl).
Defined.

(** X16.  [save] warns about the Gradle daemon only for gradle on a
    Windows runner, and only when it throws an error whose message starts
    with "Tar failed with error: ": for maven and sbt, on other runners,
    and whenever [save] returns, the warning is not among its actions. *)
Theorem gradle_daemon_warning_only_for_gradle_on_windows (env : Env)
    (pm : PackageManager) (forceUpdate : bool) (w : World) (evs : list Event) :
  In pm (supportedPackageManager env) ->
  new_events w (snd (save env (id pm) forceUpdate w)) evs ->
  In (EvWarning gradle_daemon_warning) evs ->
  id pm = "gradle"
  /\ RUNNER_OS env = Some "Windows"
  /\ exists e, fst (save env (id pm) forceUpdate w) = Throws e
               /\ Js.startsWith (message e) "Tar failed with error: " = true.
Proof.
  intros Hpm Hev Hin. unfold new_events in Hev.
  rewrite (save_run env pm forceUpdate w Hpm) in Hev |- *.
  assert (Hattempt : forall key,
    trace (snd (save_attempt env pm key w)) = (trace w ++ evs)%list ->
    id pm = "gradle" /\ RUNNER_OS env = Some "Windows"
    /\ exists e, fst (save_attempt env pm key w) = Throws e
                 /\ Js.startsWith (message e) "Tar failed with error: " = true).
  { intros key. rewrite save_attempt_run.
    destruct (saveCache env (path pm) key) as [n | e].
    - simpl. intros H. apply app_inv_head in H. subst evs.
      destruct Hin as [H | [H | []]]; discriminate H.
    - destruct (String.eqb (name e) ReserveCacheError_name).
      + simpl. intros H. apply app_inv_head in H. subst evs.
        destruct Hin as [H | [H | []]]; discriminate H.
      + destruct (isProbablyGradleDaemonProblem env pm e) eqn:Hd.
        * intros _. apply isProbablyGradleDaemonProblem_spec in Hd.
          destruct Hd as (Hid & Hos & Htar). eauto.
        * simpl. intros H. apply app_inv_head in H. subst evs.
          destruct Hin as [H | []]; discriminate H. }
  destruct forceUpdate; simpl in Hev |- *; [eauto |].
  destruct (Js.truthy (slot w STATE_CACHE_PRIMARY_KEY)); simpl in Hev |- *.
  - destruct (String.eqb _ _); [| eauto].
    simpl in Hev. apply app_inv_head in Hev. subst evs.
    destruct Hin as [H | []]; discriminate H.
  - apply app_inv_head in Hev. subst evs.
    destruct Hin as [H | []]. vm_compute in H. discriminate H.
Qed.

Lemma gradle_daemon_warning_only_for_gradle_on_windows_witness :
  In Sample.gradle_windows (supportedPackageManager Sample.windows_tar)
  /\ new_events Sample.fresh (snd (save Sample.windows_tar "gradle" true Sample.fresh))
       [EvSaveCache (path Sample.gradle_windows) EmptyString;
        EvWarning gradle_daemon_warning]
  /\ In (EvWarning gradle_daemon_warning)
        [EvSaveCache (path Sample.gradle_windows) EmptyString;
         EvWarning gradle_daemon_warning]
  /\ id Sample.gradle_windows = "gradle"
  /\ RUNNER_OS Sample.windows_tar = Some "Windows"
  /\ exists e, fst (save Sample.windows_tar "gradle" true Sample.fresh) = Throws e
               /\ Js.startsWith (message e) "Tar failed with error: " = true.
Proof.
  assert (Hpm : In Sample.gradle_windows (supportedPackageManager Sample.windows_tar))
    by (right; left; reflexivity).
  assert (Hin : In (EvWarning gradle_daemon_warning)
                   [EvSaveCache (path Sample.gradle_windows) EmptyString;
                    EvWarning gradle_daemon_warning])
    by (right; left; reflexivity).
  split; [exact Hpm |]. split; [reflexivity |]. split; [exact Hin |].
  exact (gradle_daemon_warning_only_for_gradle_on_windows Sample.windows_tar
           Sample.gradle_windows true Sample.fresh _ Hpm eq_refl Hin).
Defined.

(** X17.  [restore] without [performRestore], once the key is computed,
    returns after three actions: the call of the hashing primitive, the
    debug line "primary key is <key>" and the write of the primary-key
    slot.  It sets no output, so "cache-hit" stays as it was, and logs no
    info line. *)
Theorem restore_skipped (env : Env) (pm : PackageManager) (o : option string)
    (w : World) (h : string) :
  In pm (supportedPackageManager env) ->
  hashFiles env (Js.join Js.NL (effective_pattern pm o)) = Some h ->
  h <> EmptyString ->
  let outcome := restore env (id pm) o false w in
  fst outcome = Returns tt
  /\ outputs (snd outcome) = outputs w
  /\ new_events w (snd outcome)
       [EvHashFiles (Js.join Js.NL (effective_pattern pm o));
        EvDebug ("primary key is " ++ primary_key env pm h);
        EvSaveState STATE_CACHE_PRIMARY_KEY (primary_key env pm h)].
Proof.
  intros Hpm Hh Hne outcome. unfold outcome.
  rewrite (restore_run env pm o false w h Hpm Hh Hne). repeat split.
Qed.

Lemma restore_skipped_witness :
  In Sample.maven (supportedPackageManager Sample.linux_hit)
  /\ hashFiles Sample.linux_hit
       (Js.join Js.NL (effective_pattern Sample.maven None)) = Some "0a1b2c"
  /\ "0a1b2c" <> EmptyString
  /\ outputs (snd (restore Sample.linux_hit "maven" None false Sample.fresh))
     = outputs Sample.fresh.
Proof.
  assert (Hpm : In Sample.maven (supportedPackageManager Sample.linux_hit))
    by (left; reflexivity).
  assert (Hne : "0a1b2c" <> EmptyString) by discriminate.
  split; [exact Hpm |]. split; [reflexivity |]. split; [exact Hne |].
  exact (proj1 (proj2 (restore_skipped Sample.linux_hit Sample.maven None
                         Sample.fresh "0a1b2c" Hpm eq_refl Hne))).
Defined.
